(** * PRSummarizer: the content-extraction and classification pipeline

    A shallow embedding of [modularized_code/modules/content_processor.py],
    [modularized_code/utils/helpers.py], [modularized_code/modules/ai_client.py],
    [modularized_code/modules/scraper.py], [modularized_code/modules/storage_client.py]
    and [modularized_code/main.py].

    Conventions of the embedding.
    - A Python [str] is a [string]; one [ascii] stands for one character.
    - A Python call that may raise returns a [result]; [exn] stands for the
      instances of Python's [Exception], the class every handler of this
      program catches.
    - Code that talks to the outside world (clock, network, model, storage)
      lives in the monad [M]: it threads a [world] and may raise.
    - Calls to [logger] and [print_with_timestamp] only write to the log and
      are left out, except where the logged expression itself can raise. *)

From Stdlib Require Import String Ascii List Bool Arith ZArith Lia.
From Stdlib Require QArith_base.
From Stdlib Require Import Strings.Byte.
Import ListNotations.
Open Scope string_scope.

Set Implicit Arguments.
Set Warnings "-register-all".

(** ** Python runtime: exceptions *)

Module Py.

Inductive exn_class :=
  | KeyError
  | TypeError
  | AttributeError
  | ValueError
  | UnicodeDecodeError
  | BinasciiError
  | JSONDecodeError
  | RequestException
  | RuntimeError
  | OtherException.

Record exn := mkExn { exn_cls : exn_class; exn_str : string }.

Inductive result (A : Type) :=
  | Ok (a : A)
  | Raise (e : exn).
Arguments Ok {A} a.
Arguments Raise {A} e.

Definition rbind {A B} (r : result A) (f : A -> result B) : result B :=
  match r with
  | Ok a => f a
  | Raise e => Raise e
  end.

(** [try: r  except Exception as e: h e] for code without outside effects. *)
Definition rtry {A} (r : result A) (h : exn -> result A) : result A :=
  match r with
  | Ok a => Ok a
  | Raise e => h e
  end.

Definition is_request_exception (e : exn) : bool :=
  match exn_cls e with
  | RequestException => true
  | _ => false
  end.

(** ** Strings *)

(** Truth value of a [str]: the empty string is false. *)
Definition str_truthy (s : string) : bool :=
  match s with
  | EmptyString => false
  | String _ _ => true
  end.

(** Truth value of a variable that holds [None] or a [str]. *)
Definition opt_truthy (o : option string) : bool :=
  match o with
  | Some s => str_truthy s
  | None => false
  end.

Definition startswith (s p : string) : bool := String.prefix p s.

(** [s[:n]] *)
Definition slice_to (n : nat) (s : string) : string := substring 0 n s.

(** [sep.join(l)] *)
Definition join (sep : string) (l : list string) : string := String.concat sep l.

Definition nl : string := String (ascii_of_nat 10) EmptyString.

Definition dq : string := String (ascii_of_nat 34) EmptyString.

(** [s] between double quotes. *)
Definition q (s : string) : string := dq ++ s ++ dq.

Definition unlines (l : list string) : string := join nl l.

(** [str.isspace] on one character (code points below 256). *)
Definition isspace (c : ascii) : bool :=
  let n := nat_of_ascii c in
  ((9 <=? n) && (n <=? 13) || (28 <=? n) && (n <=? 32)
   || (n =? 133) || (n =? 160))%nat.

Fixpoint lstrip (s : string) : string :=
  match s with
  | EmptyString => EmptyString
  | String c s' => if isspace c then lstrip s' else s
  end.

Fixpoint rstrip (s : string) : string :=
  match s with
  | EmptyString => EmptyString
  | String c s' =>
      match rstrip s' with
      | EmptyString => if isspace c then EmptyString else String c EmptyString
      | t => String c t
      end
  end.

(** [s.strip()] *)
Definition strip (s : string) : string := rstrip (lstrip s).

Definition lower_char (c : ascii) : ascii :=
  let n := nat_of_ascii c in
  if ((65 <=? n) && (n <=? 90)
      || (192 <=? n) && (n <=? 222) && negb (n =? 215))%nat
  then ascii_of_nat (n + 32) else c.

(** [s.lower()] *)
Fixpoint lower (s : string) : string :=
  match s with
  | EmptyString => EmptyString
  | String c s' => String (lower_char c) (lower s')
  end.

(** ** JSON values, as [json.loads] builds them

    A [dict] is kept as the list of its items; a key occurs once.  Numbers
    are integers or finite fractions. *)

Inductive json :=
  | JNull
  | JBool (b : bool)
  | JInt (z : Z)
  | JFloat (q : QArith_base.Q)
  | JStr (s : string)
  | JArr (l : list json)
  | JObj (items : list (string * json)).

Fixpoint assoc {A} (k : string) (items : list (string * A)) : option A :=
  match items with
  | [] => None
  | (k', v) :: rest => if String.eqb k' k then Some v else assoc k rest
  end.

(** [v[k]] with a [str] key. *)
Definition getitem (v : json) (k : string) : result json :=
  match v with
  | JObj items =>
      match assoc k items with
      | Some x => Ok x
      | None => Raise (mkExn KeyError k)
      end
  | JArr _ => Raise (mkExn TypeError "list indices must be integers or slices, not str")
  | JStr _ => Raise (mkExn TypeError "string indices must be integers")
  | _ => Raise (mkExn TypeError "object is not subscriptable")
  end.

(** [v.get(k, default)]: only a [dict] has the method. *)
Definition dict_get (v : json) (k : string) (default : json) : result json :=
  match v with
  | JObj items =>
      match assoc k items with
      | Some x => Ok x
      | None => Ok default
      end
  | _ => Raise (mkExn AttributeError "object has no attribute 'get'")
  end.

(** [v == s] for a [str] literal [s]. *)
Definition py_eq_str (v : json) (s : string) : bool :=
  match v with
  | JStr t => String.eqb t s
  | _ => false
  end.

(** Truth value of a JSON value. *)
Definition truthy (v : json) : bool :=
  match v with
  | JNull => false
  | JBool b => b
  | JInt z => negb (Z.eqb z 0)
  | JFloat q => negb (Z.eqb (QArith_base.Qnum q) 0)
  | JStr s => str_truthy s
  | JArr l => match l with [] => false | _ => true end
  | JObj items => match items with [] => false | _ => true end
  end.

(** ** [datetime] values in UTC and [isoformat] *)

Record utc_datetime := mkDatetime {
  dt_year : nat; dt_month : nat; dt_day : nat;
  dt_hour : nat; dt_minute : nat; dt_second : nat;
  dt_microsecond : nat
}.

Definition digit (n : nat) : ascii := ascii_of_nat (48 + n mod 10).

(** The [width] low decimal digits of [n], zero padded. *)
Fixpoint zpad (width n : nat) : string :=
  match width with
  | O => EmptyString
  | S w => zpad w (n / 10) ++ String (digit n) EmptyString
  end.

(** [d.isoformat()] for an aware [datetime] whose offset is zero. *)
Definition isoformat (d : utc_datetime) : string :=
  zpad 4 (dt_year d) ++ "-" ++ zpad 2 (dt_month d) ++ "-" ++ zpad 2 (dt_day d)
  ++ "T" ++ zpad 2 (dt_hour d) ++ ":" ++ zpad 2 (dt_minute d)
  ++ ":" ++ zpad 2 (dt_second d)
  ++ (if Nat.eqb (dt_microsecond d) 0 then EmptyString
      else "." ++ zpad 6 (dt_microsecond d))
  ++ "+00:00".

End Py.
Export Py.

(** ** Data model *)

(** A node of the Gmail payload tree.  [mimeType], [headers] and
    [body.data] are only ever read with a default, so an absent key is the
    default; [parts] is tested for presence. *)
Inductive Part := mkPart {
  mimeType : string;
  headers : list (string * string);
  body_data : string;
  parts : option (list Part)
}.

(** The message resource returned by the Gmail API. *)
Record msg_data := mkMsg {
  payload : option Part;
  snippet : string
}.

Record ParsedEmail := mkParsed {
  subject : string;
  timestamp : string;
  html : string
}.

(** The record assembled by the orchestrator. *)
Record ProcessingResult := mkResult {
  press_release_website_timestamp : json;
  email_timestamp : string;
  retrieval_timestamp : string;
  summary_timestamp : string;
  email_subject : string;
  email_sender : string;
  press_release_url : json;
  press_release_text : option string;
  llm_summary : json
}.

(** What [process_email_message] returns: the record, or [{}]. *)
Inductive result_dict :=
  | EmptyDict
  | ResultDict (r : ProcessingResult).

(** The response object of the model; reading [.text] may raise. *)
Record response := mkResponse { text : result string }.

(** ** The libraries and services the program calls *)

Class Platform := {
  world : Type;
  (* base64 and codecs *)
  urlsafe_b64decode : string -> result (list byte);
  b64decode : string -> result (list byte);
  decode_utf8 : list byte -> result string;
  (* email.utils.parsedate_to_datetime(s).astimezone(timezone.utc) *)
  parsedate_to_utc : string -> result utc_datetime;
  (* datetime.now(timezone.utc) *)
  datetime_now_utc : world -> utc_datetime * world;
  (* bs4 with html.parser *)
  soup : Type;
  BeautifulSoup : string -> result soup;
  decompose_all : list string -> soup -> result soup;
  find_all_a_href : soup -> result (list string);
  stripped_strings : soup -> result (list string);
  get_text : soup -> result string;
  (* list(set(l)): the iteration order of a set of strings *)
  list_of_set : list string -> list string;
  (* requests.get(url, allow_redirects=True, timeout=5).url *)
  requests_get_url : string -> world -> result string * world;
  (* json.loads *)
  json_loads : string -> result json;
  (* model.generate_content *)
  generate_content : string -> world -> result response * world;
  (* AsyncWebCrawler().arun(url, config).markdown.fit_markdown *)
  crawler_fit_markdown : json -> world -> result (option string) * world;
  (* asyncio.run *)
  asyncio_run :
    forall A, (world -> result A * world) -> world -> result A * world;
  (* storage.Client().bucket(..).blob(name).upload_from_string(json.dumps(..)) *)
  gcs_upload : string -> ProcessingResult -> world -> result unit * world;
  (* service.users().messages().get(userId='me', id=..).execute() *)
  gmail_get_message : string -> world -> result msg_data * world
}.

(** ** The monad of effectful code *)

Section Monad.
Context {P : Platform}.

Definition M (A : Type) : Type := world -> result A * world.

Definition ret {A} (a : A) : M A := fun w => (Ok a, w).

Definition raise {A} (e : exn) : M A := fun w => (Raise e, w).

Definition bind {A B} (m : M A) (f : A -> M B) : M B :=
  fun w =>
    match m w with
    | (Ok a, w') => f a w'
    | (Raise e, w') => (Raise e, w')
    end.

(** A call without outside effects, run inside effectful code. *)
Definition lift {A} (r : result A) : M A := fun w => (r, w).

(** [try: m  except Exception as e: h e] *)
Definition try_except {A} (m : M A) (h : exn -> M A) : M A :=
  fun w =>
    match m w with
    | (Ok a, w') => (Ok a, w')
    | (Raise e, w') => h e w'
    end.

(** [datetime.now(timezone.utc).isoformat()] *)
Definition now_isoformat : M string :=
  fun w => let (d, w') := datetime_now_utc w in (Ok (isoformat d), w').

(** [try: m  except C as e: h e]: another exception passes through. *)
Definition try_except_if {A} (catches : exn -> bool) (m : M A)
    (h : exn -> M A) : M A :=
  fun w =>
    match m w with
    | (Ok a, w') => (Ok a, w')
    | (Raise e, w') => if catches e then h e w' else (Raise e, w')
    end.

(** The calls of a [for] loop that collects one value per item. *)
Fixpoint mapM {A B} (f : A -> M B) (l : list A) : M (list B) :=
  match l with
  | [] => ret []
  | a :: rest =>
      bind (f a) (fun b => bind (mapM f rest) (fun bs => ret (b :: bs)))
  end.

End Monad.

Declare Scope py_scope.
Delimit Scope py_scope with py.
Notation "x <- m ;; k" := (bind m (fun x => k))
  (at level 61, m at next level, right associativity) : py_scope.
Notation "' p <- m ;; k" := (bind m (fun p => k))
  (at level 61, p pattern, m at next level, right associativity) : py_scope.
Notation "x <~ r ;; k" := (rbind r (fun x => k))
  (at level 61, r at next level, right associativity) : py_scope.
Open Scope py_scope.

(** ** utils/helpers.py *)

Module helpers.
Section WithPlatform.
Context {P : Platform}.

(** One turn of the loop of [resolve_urls]: only a
    [requests.exceptions.RequestException] is turned into an entry. *)
Definition resolve_one (url : string) : M string :=
  try_except_if is_request_exception
    (requests_get_url url)
    (fun e => ret ("Error: " ++ exn_str e)).

Definition resolve_urls (url_list : list string) : M (list string) :=
  mapM resolve_one url_list.

End WithPlatform.
End helpers.
Export helpers.

(** ** modules/content_processor.py *)

Module content_processor.
Section WithPlatform.
Context {P : Platform}.

Definition _decode_body (data : string) : result string :=
  if negb (str_truthy data) then Ok ""
  else
    rtry
      (rtry
         (raw <~ urlsafe_b64decode data ;; decode_utf8 raw)
         (fun _ => raw <~ b64decode data ;; decode_utf8 raw))
      (fun _ => Ok "").

(** How one turn of the loop of [_extract_html] ends: the function returns,
    or the loop goes on with the plain text held so far. *)
Inductive turn :=
  | Return (s : string)
  | Continue (plain_content : option string).

(** The code after the loop. *)
Definition after_loop (html_content plain_content : option string) : string :=
  if opt_truthy plain_content && negb (opt_truthy html_content)
  then "<pre>" ++ match plain_content with Some t => t | None => "" end ++ "</pre>"
  else "".

(** The body of the loop on one [part]; the recursive call on the children
    of a nested multipart is the inner loop.  [html_content] is assigned
    only just before it is returned, so it is [None] after the loop. *)
Fixpoint visit_part (part : Part) (plain_content : option string)
    {struct part} : result turn :=
  let part_type := mimeType part in
  if String.eqb part_type "text/html" then
    let body_data := body_data part in
    if str_truthy body_data then
      html_content <~ _decode_body body_data ;;
      Ok (Return html_content)
    else Ok (Continue plain_content)
  else if String.eqb part_type "text/plain" then
    let body_data := body_data part in
    if str_truthy body_data then
      decoded <~ _decode_body body_data ;;
      Ok (Continue (Some decoded))
    else Ok (Continue plain_content)
  else if startswith part_type "multipart" then
    match parts part with
    | Some children =>
        nested <~
          (fix loop (l : list Part) (held : option string) : result string :=
             match l with
             | [] => Ok (after_loop None held)
             | p :: rest =>
                 t <~ visit_part p held ;;
                 match t with
                 | Return s => Ok s
                 | Continue held' => loop rest held'
                 end
             end) children None ;;
        if str_truthy nested then Ok (Return nested)
        else Ok (Continue plain_content)
    | None => Ok (Continue plain_content)
    end
  else Ok (Continue plain_content).

Fixpoint extract_loop (l : list Part) (plain_content : option string)
    : result string :=
  match l with
  | [] => Ok (after_loop None plain_content)
  | p :: rest =>
      t <~ visit_part p plain_content ;;
      match t with
      | Return s => Ok s
      | Continue held => extract_loop rest held
      end
  end.

Definition _extract_html (parts : list Part) : result string :=
  extract_loop parts None.

Definition _extract_email_body (payload : Part) (mime_type : string)
    (parts : list Part) : result string :=
  if startswith mime_type "multipart" then _extract_html parts
  else if String.eqb mime_type "text/html" then
    let body_data := body_data payload in
    if str_truthy body_data then _decode_body body_data else Ok ""
  else if String.eqb mime_type "text/plain" then
    let body_data := body_data payload in
    if str_truthy body_data then
      plain_text <~ _decode_body body_data ;;
      Ok ("<pre>" ++ plain_text ++ "</pre>")
    else Ok ""
  else
    let body_data := body_data payload in
    if str_truthy body_data then _decode_body body_data else Ok "".

(** [next((h['value'] for h in headers if h['name'].lower() in names), '')] *)
Fixpoint first_header (names : list string) (hs : list (string * string))
    : string :=
  match hs with
  | [] => ""
  | (name, value) :: rest =>
      if existsb (String.eqb (lower name)) names then value
      else first_header names rest
  end.

(** [msg_data['payload']] *)
Definition payload_item (msg : msg_data) : result Part :=
  match payload msg with
  | Some p => Ok p
  | None => Raise (mkExn KeyError "payload")
  end.

(** The empty dict that [msg_data.get('payload', {})] defaults to. *)
Definition empty_part : Part := mkPart "" [] "" None.

Definition parse_email_content (msg : msg_data) : M ParsedEmail :=
  pl <- lift (payload_item msg) ;;
  let hs := headers pl in
  let subject := first_header ["subject"] hs in
  let date_raw := first_header ["date"] hs in
  timestamp <-
    (if str_truthy date_raw then
       try_except
         (d <- lift (parsedate_to_utc date_raw) ;; ret (isoformat d))
         (fun _ => now_isoformat)
     else ret "") ;;
  let payload := match payload msg with Some p => p | None => empty_part end in
  let mime_type := mimeType payload in
  let parts := match parts payload with Some l => l | None => [] end in
  html_body <- lift (_extract_email_body payload mime_type parts) ;;
  let html_body :=
    if negb (str_truthy html_body) then
      let snippet := snippet msg in
      if str_truthy snippet then "<pre>" ++ snippet ++ "</pre>"
      else "<pre>No content could be extracted from this email</pre>"
    else html_body in
  ret (mkParsed subject timestamp html_body).

Definition get_email_sender (msg : msg_data) : result string :=
  pl <~ payload_item msg ;;
  Ok (first_header ["from"; "sender"] (headers pl)).

(** *** [re.findall(r'https?://\S+', text)] *)

Fixpoint strip_prefix (p s : string) : option string :=
  match p, s with
  | EmptyString, _ => Some s
  | String a p', String b s' => if Ascii.eqb a b then strip_prefix p' s' else None
  | String _ _, EmptyString => None
  end.

(** Length of the longest run of non-space characters at the start. *)
Fixpoint nonspace_run (s : string) : nat :=
  match s with
  | EmptyString => 0
  | String c s' => if isspace c then 0 else S (nonspace_run s')
  end.

(** [://\S+] after a prefix of [pre] characters: the length of the match. *)
Definition match_tail (pre : nat) (s : string) : option nat :=
  match strip_prefix "://" s with
  | Some t =>
      match nonspace_run t with
      | O => None
      | n => Some (pre + 3 + n)
      end
  | None => None
  end.

(** Length of the match of the pattern at the start of [s], if any. *)
Definition match_url_at (s : string) : option nat :=
  match strip_prefix "http" s with
  | Some r =>
      match strip_prefix "s" r with
      | Some r' =>
          match match_tail 5 r' with
          | Some n => Some n
          | None => match_tail 4 r
          end
      | None => match_tail 4 r
      end
  | None => None
  end.

(** Leftmost matches that do not overlap: after a match of [n] characters
    the scan skips the [n - 1] that follow its first. *)
Fixpoint findall_from (skip : nat) (s : string) : list string :=
  match s with
  | EmptyString => []
  | String _ s' =>
      match skip with
      | S k => findall_from k s'
      | O =>
          match match_url_at s with
          | Some n => substring 0 n s :: findall_from (n - 1) s'
          | None => findall_from 0 s'
          end
      end
  end.

Definition findall_urls (text : string) : list string := findall_from 0 text.

(** The [try] block of [process_html_content]. *)
Definition process_html_try (html : string) : M (string * list string) :=
  soup0 <- lift (BeautifulSoup html) ;;
  soup1 <- lift (decompose_all ["script"; "style"; "nav"; "footer"; "header"] soup0) ;;
  urls <- lift (find_all_a_href soup1) ;;
  strings <- lift (stripped_strings soup1) ;;
  let body := slice_to 1000 (join " " strings) in
  text <- lift (get_text soup1) ;;
  let text_urls := findall_urls text in
  let all_urls := list_of_set (urls ++ text_urls) in
  final_urls <- resolve_urls all_urls ;;
  ret (body, final_urls).

Definition process_html_content (html : string) : M (string * list string) :=
  try_except (process_html_try html) (fun _ => ret ("", [])).

End WithPlatform.
End content_processor.
Export content_processor.

(** ** modules/ai_client.py *)

Module ai_client.
Section WithPlatform.
Context {P : Platform}.

(** ['   ,   '.join(urls) if urls else 'None'] *)
Definition urls_field (urls : list string) : string :=
  match urls with
  | [] => "None"
  | _ => join "   ,   " urls
  end.

Definition construct_classification_prompt (subject body : string) (urls : list string) : string :=
  unlines
    [ EmptyString;
      "        Prompt:";
      EmptyString;
      "        You are given the content of an email. Classify whether the email is a press release. A press release is a formal announcement about company news, product launches, partnerships, or significant events, and is intended for public or media distribution. Do not classify stock updates, investor alerts, promotional emails, or subscription notices as press releases.";
      EmptyString;
      "        Return only a raw JSON object in the following format (on a single line):";
      EmptyString;
      "        {";
      "        " ++ q "press_release" ++ ": " ++ q "YES" ++ " or " ++ q "NO" ++ ",";
      "        " ++ q "type" ++ ": " ++ q "inline" ++ " (if the press release content is in the email body), " ++ q "url" ++ " (if it's in a linked page), or null,";
      "        " ++ q "url" ++ ": a string (if type is " ++ q "url" ++ "), otherwise null,";
      "        " ++ q "text" ++ ": the main body of the press release as a string (if type is " ++ q "inline" ++ "), otherwise null,";
      "        " ++ q "timestamp" ++ ": the release date in YYYY-MM-DD format (if type is " ++ q "inline" ++ "), otherwise null";
      "        }";
      EmptyString;
      "        Rules:";
      "        1. Preserve URLs exactly as received";
      "        2. Never modify URL casing/parameters";
      "        3. Return raw JSON without markdown";
      "        4. For 'inline' type, extract the release date or timestamp from the email body and set 'timestamp'. If the date cannot be determined, set 'timestamp' to null.";
      EmptyString;
      "        Examples:";
      EmptyString;
      "        {" ++ q "press_release" ++ ": " ++ q "YES" ++ ", " ++ q "type" ++ ": " ++ q "inline" ++ ", " ++ q "url" ++ ": null, " ++ q "text" ++ ": " ++ q "New York, NY - May 20, 2025 - Company XYZ announces..." ++ ", " ++ q "timestamp" ++ ": " ++ q "2025-05-20" ++ "}";
      "        {" ++ q "press_release" ++ ": " ++ q "YES" ++ ", " ++ q "type" ++ ": " ++ q "url" ++ ", " ++ q "url" ++ ": " ++ q "https://xyz.com/press-release" ++ ", " ++ q "text" ++ ": null, " ++ q "timestamp" ++ ": null}";
      "        {" ++ q "press_release" ++ ": " ++ q "NO" ++ ", " ++ q "type" ++ ": null, " ++ q "url" ++ ": null, " ++ q "text" ++ ": null, " ++ q "timestamp" ++ ": null}";
      EmptyString;
      "        Input:";
      EmptyString;
      "        SUBJECT: " ++ subject;
      "        BODY: " ++ slice_to 1000 body;
      "        URLS: " ++ urls_field urls;
      EmptyString;
      "        Only return a single-line raw JSON response. Do not include code blocks or markdown.";
      "        " ].

Definition construct_summary_prompt (text : string) : string :=
  unlines
    [ EmptyString;
      "            Prompt:";
      EmptyString;
      "                You are given a press release. Summarize the content with a concise structured summary.";
      EmptyString;
      "                Return a single-line raw JSON object in the following format (do NOT include triple backticks or any formatting):";
      EmptyString;
      "                " ++ q "headline" ++ ": a short, informative title based on the press release";
      EmptyString;
      "                " ++ q "key_result" ++ ": a concise statement of the main outcome or news";
      EmptyString;
      "                " ++ q "impacted_program" ++ ": the specific program, initiative, or area affected";
      EmptyString;
      "                " ++ q "next_step" ++ ": the immediate follow-up action or implication mentioned";
      EmptyString;
      "                " ++ q "timestamp" ++ ": the release date in date format or timestamp format, or null if not found";
      EmptyString;
      "            TEXT:";
      EmptyString;
      "                " ++ text;
      EmptyString;
      "            Only return a single-line raw JSON object. Do not include triple quotes, code blocks, or markdown.";
      "        " ].

Definition default_classification : json :=
  JObj [("press_release", JStr "NO"); ("type", JNull); ("url", JNull);
        ("text", JNull)].

Definition default_summary : json :=
  JObj [("headline", JStr ""); ("key_result", JStr "");
        ("impacted_program", JStr ""); ("next_step", JStr "")].

(** [response.text] is read for the log and again for [json.loads]; it is
    read once here. *)
Definition call_gemini (prompt : string) : M json :=
  try_except
    (response <- generate_content prompt ;;
     raw <- lift (text response) ;;
     result <- lift (json_loads (strip raw)) ;;
     ret result)
    (fun _ => ret default_classification).

Definition classify_press_release (subject body : string)
    (urls : list string) : M json :=
  let prompt := construct_classification_prompt subject body urls in
  call_gemini prompt.

(** The log line inside the [try] reads [result.get('headline', '')]. *)
Definition summarize_press_release (text0 : string) : M json :=
  let prompt := construct_summary_prompt text0 in
  try_except
    (response <- generate_content prompt ;;
     raw <- lift (text response) ;;
     result <- lift (json_loads (strip raw)) ;;
     _ <- lift (dict_get result "headline" (JStr "")) ;;
     ret result)
    (fun _ => ret default_summary).

End WithPlatform.
End ai_client.
Export ai_client.

(** ** modules/scraper.py *)

Module scraper.
Section WithPlatform.
Context {P : Platform}.

Definition async_scrape_url (url : json) : M (option string) :=
  try_except (crawler_fit_markdown url) (fun _ => ret None).

Definition sync_scrape_url (url : json) : M (option string) :=
  asyncio_run (async_scrape_url url).

End WithPlatform.
End scraper.
Export scraper.

(** ** modules/storage_client.py *)

Module storage_client.
Section WithPlatform.
Context {P : Platform}.

Definition RESULTS_PREFIX : string := "press-release-results/".

Definition save_to_gcs (data : ProcessingResult) (filename : string) : M bool :=
  try_except
    (_ <- gcs_upload (RESULTS_PREFIX ++ filename) data ;; ret true)
    (fun _ => ret false).

End WithPlatform.
End storage_client.
Export storage_client.

(** ** main.py *)

Module main.
Section WithPlatform.
Context {P : Platform}.

(** The four variables set before the test on the classification. *)
Record pr_vars := mkVars {
  v_summary : json;
  v_press_release_text : option string;
  v_press_release_url : json;
  v_press_release_website_timestamp : json
}.

Definition initial_vars : pr_vars := mkVars (JObj []) None JNull JNull.

(** From the fetch of the message to the processed HTML. *)
Definition normalized_stage (message_id : string)
    : M (ParsedEmail * string * string * list string) :=
  msg <- gmail_get_message message_id ;;
  email_info <- parse_email_content msg ;;
  sender <- lift (get_email_sender msg) ;;
  ' (body, urls) <- process_html_content (html email_info) ;;
  ret (email_info, sender, body, urls).

(** The branch on [classification['type']]: the text to summarise and the
    variables it sets. *)
Definition resolve_text (classification : json) (body : string)
    : M (option string * pr_vars) :=
  ty <- lift (getitem classification "type") ;;
  if py_eq_str ty "inline" then
    let text0 := Some body in
    ts <- lift (getitem classification "timestamp") ;;
    ret (text0, mkVars (JObj []) text0 JNull ts)
  else
    ty' <- lift (getitem classification "type") ;;
    if py_eq_str ty' "url" then
      url <- lift (getitem classification "url") ;;
      if truthy url then
        text0 <- sync_scrape_url url ;;
        ret (text0, mkVars (JObj []) text0 url JNull)
      else ret (None, initial_vars)
    else ret (None, initial_vars).

(** [if text: ...] *)
Definition summarize_if_text (text0 : option string) (vars : pr_vars)
    : M pr_vars :=
  match text0 with
  | Some t =>
      if str_truthy t then
        summary <- summarize_press_release t ;;
        ts <- lift (dict_get summary "timestamp" (JStr "")) ;;
        _ <- lift (dict_get summary "headline" (JStr "")) ;;
        ret (mkVars summary (v_press_release_text vars)
               (v_press_release_url vars) ts)
      else ret vars
  | None => ret vars
  end.

(** [if classification['press_release'] == "YES": ...] *)
Definition press_release_stage (classification : json) (body : string)
    : M pr_vars :=
  pr <- lift (getitem classification "press_release") ;;
  if py_eq_str pr "YES" then
    ' (text0, vars) <- resolve_text classification body ;;
    summarize_if_text text0 vars
  else ret initial_vars.

(** Build the record, save it, return it. *)
Definition assemble (message_id : string) (email_info : ParsedEmail)
    (sender : string) (vars : pr_vars) : M result_dict :=
  retrieval <- now_isoformat ;;
  summarized <- now_isoformat ;;
  let result :=
    mkResult (v_press_release_website_timestamp vars)
      (timestamp email_info) retrieval summarized
      (subject email_info) sender
      (v_press_release_url vars) (v_press_release_text vars)
      (v_summary vars) in
  let filename := message_id ++ ".json" in
  _ <- save_to_gcs result filename ;;
  ret (ResultDict result).

(** The [try] block of [process_email_message]. *)
Definition process_email_try (message_id : string) : M result_dict :=
  ' (email_info, sender, body, urls) <- normalized_stage message_id ;;
  classification <- classify_press_release (subject email_info) body urls ;;
  vars <- press_release_stage classification body ;;
  assemble message_id email_info sender vars.

Definition process_email_message (message_id : string) : M result_dict :=
  try_except (process_email_try message_id) (fun _ => ret EmptyDict).

End WithPlatform.
End main.
Export main.

(** ** A concrete platform for examples

    Decoders that follow [binascii.a2b_base64] and UTF-8 (for the code
    points below 256), a clock that ticks, and scripted services: the model
    answers from a queue held in the world, the other services answer from
    small tables. *)

Module Fixture.

Definition rmap {A B} (f : A -> B) (r : result A) : result B :=
  match r with
  | Ok a => Ok (f a)
  | Raise e => Raise e
  end.

Definition between (lo n hi : nat) : bool := (lo <=? n)%nat && (n <=? hi)%nat.

Definition b64_index (c : ascii) : option nat :=
  let n := nat_of_ascii c in
  if between 65 n 90 then Some (n - 65)
  else if between 97 n 122 then Some (n - 71)
  else if between 48 n 57 then Some (n + 4)
  else if (n =? 43)%nat then Some 62
  else if (n =? 47)%nat then Some 63
  else None.

Definition byte_of_nat (n : nat) : byte := byte_of_ascii (ascii_of_nat n).

Definition nat_of_byte (b : byte) : nat := nat_of_ascii (ascii_of_byte b).

(** The loop of [a2b_base64] without strict mode: characters outside the
    alphabet are skipped, padding that completes a quad ends the input. *)
Fixpoint a2b_base64 (s : string) (quad_pos leftchar pads : nat)
    : result (list byte) :=
  match s with
  | EmptyString =>
      if (quad_pos =? 0)%nat then Ok []
      else Raise (mkExn BinasciiError "Incorrect padding")
  | String c s' =>
      if Ascii.eqb c "="%char then
        if (2 <=? quad_pos)%nat then
          if (4 <=? quad_pos + S pads)%nat then Ok []
          else a2b_base64 s' quad_pos leftchar (S pads)
        else a2b_base64 s' quad_pos leftchar pads
      else
        match b64_index c with
        | None => a2b_base64 s' quad_pos leftchar pads
        | Some v =>
            match quad_pos with
            | 0 => a2b_base64 s' 1 v 0
            | 1 => rmap (cons (byte_of_nat (leftchar * 4 + v / 16)))
                     (a2b_base64 s' 2 (v mod 16) 0)
            | 2 => rmap (cons (byte_of_nat (leftchar * 16 + v / 4)))
                     (a2b_base64 s' 3 (v mod 4) 0)
            | _ => rmap (cons (byte_of_nat (leftchar * 64 + v)))
                     (a2b_base64 s' 0 0 0)
            end
        end
  end.

Fixpoint all_ascii (s : string) : bool :=
  match s with
  | EmptyString => true
  | String c s' => (nat_of_ascii c <? 128)%nat && all_ascii s'
  end.

Definition std_b64decode (s : string) : result (list byte) :=
  if all_ascii s then a2b_base64 s 0 0 0
  else Raise (mkExn ValueError "string argument should contain only ASCII characters").

Fixpoint translate_urlsafe (s : string) : string :=
  match s with
  | EmptyString => EmptyString
  | String c s' =>
      String (if Ascii.eqb c "-"%char then "+"%char
              else if Ascii.eqb c "_"%char then "/"%char else c)
        (translate_urlsafe s')
  end.

Definition std_urlsafe_b64decode (s : string) : result (list byte) :=
  std_b64decode (translate_urlsafe s).

Definition bad_utf8 : exn := mkExn UnicodeDecodeError "invalid utf-8".

Fixpoint utf8_decode (l : list byte) : result string :=
  match l with
  | [] => Ok EmptyString
  | b :: rest =>
      let n := nat_of_byte b in
      if (n <? 128)%nat then rmap (String (ascii_of_nat n)) (utf8_decode rest)
      else if between 194 n 195 then
        match rest with
        | c :: rest' =>
            let m := nat_of_byte c in
            if between 128 m 191
            then rmap (String (ascii_of_nat ((n - 192) * 64 + (m - 128))))
                   (utf8_decode rest')
            else Raise bad_utf8
        | [] => Raise bad_utf8
        end
      else Raise bad_utf8
  end.

(** The clock and the queue of scripted model answers. *)
Record fworld := mkWorld {
  script : list (result response);
  ticks : nat
}.

Definition tick (w : fworld) : fworld := mkWorld (script w) (S (ticks w)).

Definition fixture_now (w : fworld) : utc_datetime * fworld :=
  (mkDatetime 2026 1 15 9 30 (ticks w mod 60) 0, tick w).

Definition fixture_parsedate (s : string) : result utc_datetime :=
  if String.eqb s "Tue, 20 May 2025 10:00:00 +0000"
  then Ok (mkDatetime 2025 5 20 10 0 0 0)
  else Raise (mkExn ValueError "Invalid date value or format").

(** The parsed document: what the three queries of the program see. *)
Record fsoup := mkSoup {
  s_hrefs : list string;
  s_strings : list string;
  s_text : string
}.

Definition two_links : string :=
  "<a href=" ++ q "http://a.example/r" ++ ">A</a> <a href="
  ++ q "http://b.example/r" ++ ">B</a>".

Definition fixture_parse (html : string) : result fsoup :=
  if String.eqb html two_links then
    Ok (mkSoup ["http://a.example/r"; "http://b.example/r"] ["A"; "B"] "A B")
  else if String.eqb html "<p>Acme launches</p>" then
    Ok (mkSoup [] ["Acme launches"] "Acme launches")
  else if startswith html "<!broken" then
    Raise (mkExn OtherException "parser failure")
  else
    Ok (mkSoup [] (match strip html with EmptyString => [] | t => [t] end) html).

(** Both short links redirect to one page. *)
Definition fixture_get (url : string) (w : fworld) : result string * fworld :=
  if startswith url "http://a.example/" || startswith url "http://b.example/"
  then (Ok "https://example.org/news", tick w)
  else if startswith url "http" then (Ok url, tick w)
  else (Raise (mkExn RequestException ("Invalid URL " ++ url)), tick w).

Definition inline_answer : string :=
  "{" ++ q "press_release" ++ ": " ++ q "YES" ++ ", " ++ q "type" ++ ": "
  ++ q "inline" ++ ", " ++ q "url" ++ ": null, " ++ q "text" ++ ": "
  ++ q "Acme launches" ++ ", " ++ q "timestamp" ++ ": " ++ q "2025-05-20" ++ "}".

Definition inline_classification : json :=
  JObj [("press_release", JStr "YES"); ("type", JStr "inline"); ("url", JNull);
        ("text", JStr "Acme launches"); ("timestamp", JStr "2025-05-20")].

Definition summary_answer : string :=
  "{" ++ q "headline" ++ ": " ++ q "Acme launches" ++ ", " ++ q "key_result"
  ++ ": " ++ q "launch" ++ ", " ++ q "impacted_program" ++ ": " ++ q "none"
  ++ ", " ++ q "next_step" ++ ": " ++ q "none" ++ "}".

Definition summary_without_timestamp : json :=
  JObj [("headline", JStr "Acme launches"); ("key_result", JStr "launch");
        ("impacted_program", JStr "none"); ("next_step", JStr "none")].

Definition url_answer : string :=
  "{" ++ q "press_release" ++ ": " ++ q "YES" ++ ", " ++ q "type" ++ ": "
  ++ q "url" ++ ", " ++ q "url" ++ ": " ++ q "https://x.com/pr" ++ "}".

Definition url_classification : json :=
  JObj [("press_release", JStr "YES"); ("type", JStr "url");
        ("url", JStr "https://x.com/pr")].

Definition fixture_loads (s : string) : result json :=
  if String.eqb s inline_answer then Ok inline_classification
  else if String.eqb s url_answer then Ok url_classification
  else if String.eqb s summary_answer then Ok summary_without_timestamp
  else if String.eqb s "[]" then Ok (JArr [])
  else if String.eqb s ("{" ++ q "type" ++ ": null}") then Ok (JObj [("type", JNull)])
  else Raise (mkExn JSONDecodeError "Expecting value").

Definition fixture_generate (prompt : string) (w : fworld)
    : result response * fworld :=
  match script w with
  | r :: rest => (r, mkWorld rest (S (ticks w)))
  | [] => (Raise (mkExn RuntimeError "no answer scripted"), tick w)
  end.

Definition fixture_crawl (url : json) (w : fworld)
    : result (option string) * fworld :=
  if py_eq_str url "https://x.com/pr" then (Ok None, tick w)
  else (Ok (Some "Acme launches a product"), tick w).

Definition html_message : msg_data :=
  mkMsg
    (Some (mkPart "text/html"
             [("Subject", "Acme launches");
              ("From", "press@acme.example");
              ("Date", "Tue, 20 May 2025 10:00:00 +0000")]
             "PHA-QWNtZSBsYXVuY2hlczwvcD4=" None))
    "Acme launches".

Definition fixture_message (message_id : string) (w : fworld)
    : result msg_data * fworld :=
  if String.eqb message_id "m1" then (Ok html_message, tick w)
  else if String.eqb message_id "m2" then (Ok (mkMsg None ""), tick w)
  else (Raise (mkExn OtherException "HttpError 404"), tick w).

Definition fixture_upload (name : string) (r : ProcessingResult) (w : fworld)
    : result unit * fworld :=
  (Ok tt, tick w).

#[export] Instance platform : Platform := {|
  world := fworld;
  urlsafe_b64decode := std_urlsafe_b64decode;
  b64decode := std_b64decode;
  decode_utf8 := utf8_decode;
  parsedate_to_utc := fixture_parsedate;
  datetime_now_utc := fixture_now;
  soup := fsoup;
  BeautifulSoup := fixture_parse;
  decompose_all := fun _ sp => Ok sp;
  find_all_a_href := fun sp => Ok (s_hrefs sp);
  stripped_strings := fun sp => Ok (s_strings sp);
  get_text := fun sp => Ok (s_text sp);
  list_of_set := nodup string_dec;
  requests_get_url := fixture_get;
  json_loads := fixture_loads;
  generate_content := fixture_generate;
  crawler_fit_markdown := fixture_crawl;
  asyncio_run := fun _ m => m;
  gcs_upload := fixture_upload;
  gmail_get_message := fixture_message
|}.

Definition w0 (answers : list (result response)) : fworld := mkWorld answers 0.

(** The model classifies the message as an inline press release, then
    summarises it without a date. *)
Definition inline_run : fworld :=
  w0 [Ok (mkResponse (Ok inline_answer)); Ok (mkResponse (Ok summary_answer))].

(** The model answers with a JSON array. *)
Definition array_run : fworld := w0 [Ok (mkResponse (Ok "[]"))].

Definition parsed_m1 : ParsedEmail :=
  mkParsed "Acme launches" "2025-05-20T10:00:00+00:00" "<p>Acme launches</p>".

Definition inline_record : ProcessingResult :=
  mkResult (JStr "") "2025-05-20T10:00:00+00:00"
    "2026-01-15T09:30:03+00:00" "2026-01-15T09:30:04+00:00"
    "Acme launches" "press@acme.example" JNull (Some "Acme launches")
    summary_without_timestamp.

End Fixture.

(** ** Vocabulary of the statements *)





(** The walk goes on after [p]: it is not an HTML part with data, and when
    it is a nested multipart with parts, what is extracted from them is the
    empty string. *)
Definition goes_on {P : Platform} (p : Part) : bool :=
  if String.eqb (mimeType p) "text/html" then negb (str_truthy (body_data p))
  else if String.eqb (mimeType p) "text/plain" then true
  else if startswith (mimeType p) "multipart" then
    match parts p with
    | Some children =>
        match _extract_html children with
        | Ok nested => negb (str_truthy nested)
        | Raise _ => false
        end
    | None => true
    end
  else true.

(** The walk goes on after [p] with the text it held. *)
Definition keeps_held {P : Platform} (p : Part) : bool :=
  goes_on p
  && negb (String.eqb (mimeType p) "text/plain" && str_truthy (body_data p)).


(** The value [json.loads] gives for the answer of the model, when the
    call, the read of [.text] and the parse all succeed. *)
Definition parsed_answer {P : Platform} (r : result response) : result json :=
  resp <~ r ;; raw <~ text resp ;; json_loads (strip raw).

(** [v] is a dict with the key [k]. *)
Definition has_key (v : json) (k : string) : bool :=
  match v with
  | JObj items => match assoc k items with Some _ => true | None => false end
  | _ => false
  end.

(** [final] is what one turn of [resolve_urls] makes of [url], in some
    state of the world. *)
Definition resolves_to {P : Platform} (url final : string) : Prop :=
  exists w w', resolve_one url w = (Ok final, w').

(** The value of the first header named [name], or [""]. *)
Definition header_of (name : string) (pl : Part) : string :=
  first_header [name] (headers pl).

(** The decoder in the words of its contract: the first of the attempts
    that succeeds, the empty string when none does. *)
Fixpoint first_success (attempts : list (result string)) : string :=
  match attempts with
  | [] => ""
  | Ok s :: _ => s
  | Raise _ :: rest => first_success rest
  end.

Definition MessageDecoder {P : Platform} (data : string) : string :=
  match data with
  | EmptyString => ""
  | _ =>
      first_success
        [ (raw <~ urlsafe_b64decode data ;; decode_utf8 raw);
          (raw <~ b64decode data ;; decode_utf8 raw) ]
  end.

(** Induction on the tree of parts. *)
Section PartInduction.
Variable Q : Part -> Prop.
Hypothesis Q_leaf : forall m h d, Q (mkPart m h d None).
Hypothesis Q_node : forall m h d l, Forall Q l -> Q (mkPart m h d (Some l)).

Fixpoint Part_tree_ind (p : Part) : Q p :=
  match p with
  | mkPart m h d None => Q_leaf m h d
  | mkPart m h d (Some l) =>
      Q_node m h d
        ((fix all (l : list Part) : Forall Q l :=
            match l with
            | [] => Forall_nil Q
            | x :: r => Forall_cons x (Part_tree_ind x) (all r)
            end) l)
  end.
End PartInduction.

(** Payload trees used in the examples. *)



(** A message without a [Date] header. *)
Definition undated_message : msg_data :=
  mkMsg
    (Some (mkPart "text/html" [("Subject", "Acme launches")]
             "PHA-QWNtZSBsYXVuY2hlczwvcD4=" None))
    "Acme launches".

(** ** modules/pubsub_client.py *)

(** A Pub/Sub message: its id and its payload bytes. *)
Record notification := mkNotification {
  n_message_id : string;
  n_data : list byte
}.

(** What the callback needs beyond the platform: the lenient decoder, the
    listing of the inbox (the ids of [results.get('messages', [])]) and the
    two answers to Pub/Sub. *)
Class PubSub (P : Platform) := {
  (* raw_data.decode('utf-8', errors='ignore') *)
  decode_utf8_ignore : list byte -> string;
  (* service.users().messages().list(userId='me', labelIds=['INBOX'],
     maxResults=1).execute() *)
  gmail_list_inbox : world -> result (list string) * world;
  (* message.ack() *)
  message_ack : notification -> world -> result unit * world;
  (* message.nack() *)
  message_nack : notification -> world -> result unit * world
}.

Module pubsub_client.
Section WithPlatform.
Context {P : Platform} {S : PubSub P}.

Definition is_json_decode_error (e : exn) : bool :=
  match exn_cls e with
  | JSONDecodeError => true
  | _ => false
  end.

(** The function [callback] that [process_pubsub_messages] subscribes.  The
    inner [try] gives the parsed payload, or [None] after the [nack] of its
    handler. *)
Definition callback (message_processor : string -> M result_dict)
    (message : notification) : M unit :=
  try_except
    (let decoded_data := decode_utf8_ignore (n_data message) in
     parsed <-
       try_except_if is_json_decode_error
         (data <- lift (json_loads decoded_data) ;; ret (Some data))
         (fun _ => _ <- message_nack message ;; ret None) ;;
     match parsed with
     | None => ret tt
     | Some data =>
         email_data <- lift (dict_get data "emailAddress" JNull) ;;
         if negb (truthy email_data) then message_nack message
         else
           messages <- gmail_list_inbox ;;
           match messages with
           | [] => message_ack message
           | msg_id :: _ =>
               _ <- message_processor msg_id ;;
               message_ack message
           end
     end)
    (fun _ => message_nack message).

End WithPlatform.
End pubsub_client.
Export pubsub_client.

(** ** A concrete inbox for examples *)

Module InboxFixture.

Fixpoint ascii_only (l : list byte) : string :=
  match l with
  | [] => EmptyString
  | b :: rest =>
      if (Fixture.nat_of_byte b <? 128)%nat
      then String (ascii_of_byte b) (ascii_only rest)
      else ascii_only rest
  end.

Fixpoint bytes_of (s : string) : list byte :=
  match s with
  | EmptyString => []
  | String c s' => byte_of_ascii c :: bytes_of s'
  end.

Definition inbox_list (w : Fixture.fworld) : result (list string) * Fixture.fworld :=
  (Ok ["gone"], Fixture.tick w).

Definition inbox_answer (message : notification) (w : Fixture.fworld)
    : result unit * Fixture.fworld :=
  (Ok tt, Fixture.tick w).

#[export] Instance inbox : PubSub Fixture.platform :=
  @Build_PubSub Fixture.platform ascii_only inbox_list inbox_answer inbox_answer.

(** A notification whose payload is the JSON array [[]]. *)
Definition array_notification : notification :=
  mkNotification "n1" (bytes_of "[]").

(** A notification whose payload is not JSON. *)
Definition garbled_notification : notification :=
  mkNotification "n2" (bytes_of "not json").

End InboxFixture.

(** ** Vocabulary of the further statements *)

(** What [parse_email_content] hands to [_extract_email_body]. *)
Definition extracted_body {P : Platform} (pl : Part) : result string :=
  _extract_email_body pl (mimeType pl)
    (match parts pl with Some l => l | None => [] end).

(** A [text/plain] part with body data. *)
Definition plain_with_data (p : Part) : bool :=
  String.eqb (mimeType p) "text/plain" && str_truthy (body_data p).


(** No header of [hs] is named, up to case, by one of [names]. *)
Definition no_header (names : list string) (hs : list (string * string)) : bool :=
  forallb (fun h => negb (existsb (String.eqb (lower (fst h))) names)) hs.

Fixpoint has_space (s : string) : bool :=
  match s with
  | EmptyString => false
  | String c s' => isspace c || has_space s'
  end.

(** The resolver raises nothing but [RequestException]. *)
Definition only_request_exceptions {P : Platform} : Prop :=
  forall url w e w',
    requests_get_url url w = (Raise e, w') -> is_request_exception e = true.

(** The truth value of [data.get('emailAddress')] for the payload of a
    notification; [false] when the payload is not JSON or not a dict. *)
Definition notification_address {P : Platform} {S : PubSub P}
    (message : notification) : bool :=
  match json_loads (decode_utf8_ignore (n_data message)) with
  | Ok data =>
      match dict_get data "emailAddress" JNull with
      | Ok email_data => truthy email_data
      | Raise _ => false
      end
  | Raise _ => false
  end.

(** Part trees and answers used in the further examples. *)

Definition two_plain_parts : list Part :=
  [ mkPart "text/plain" [] "aGVsbG8=" None;
    mkPart "multipart/alternative" [] ""
      (Some [mkPart "text/plain" [] "YQ" None]);
    mkPart "text/plain" [] "cGxhaW4=" None;
    mkPart "multipart/mixed" [] "" (Some [mkPart "text/html" [] "" None]);
    mkPart "image/png" [] "AAAA" None ].

Definition empty_alternative : Part :=
  mkPart "multipart/alternative" [] "" (Some [mkPart "text/plain" [] "" None]).


Definition html_part : Part := mkPart "text/html" [] "PGI-aGk8L2I-" None.


Definition plain_part : Part := mkPart "text/plain" [] "cGxhaW4=" None.

(** The concrete platform with a resolver that follows the first short link
    and fails outside [requests] on every other URL. *)

Module BrokenResolver.

Definition broken_get (url : string) (w : Fixture.fworld)
    : result string * Fixture.fworld :=
  if startswith url "http://a.example/"
  then (Ok "https://example.org/news", Fixture.tick w)
  else (Raise (mkExn OtherException "LocationParseError"), Fixture.tick w).

#[export] Instance platform : Platform := {|
  world := Fixture.fworld;
  urlsafe_b64decode := Fixture.std_urlsafe_b64decode;
  b64decode := Fixture.std_b64decode;
  decode_utf8 := Fixture.utf8_decode;
  parsedate_to_utc := Fixture.fixture_parsedate;
  datetime_now_utc := Fixture.fixture_now;
  soup := Fixture.fsoup;
  BeautifulSoup := Fixture.fixture_parse;
  decompose_all := fun _ sp => Ok sp;
  find_all_a_href := fun sp => Ok (Fixture.s_hrefs sp);
  stripped_strings := fun sp => Ok (Fixture.s_strings sp);
  get_text := fun sp => Ok (Fixture.s_text sp);
  list_of_set := nodup string_dec;
  requests_get_url := broken_get;
  json_loads := Fixture.fixture_loads;
  generate_content := Fixture.fixture_generate;
  crawler_fit_markdown := Fixture.fixture_crawl;
  asyncio_run := fun _ m => m;
  gcs_upload := Fixture.fixture_upload;
  gmail_get_message := Fixture.fixture_message
|}.

End BrokenResolver.

(** The concrete platform with one message in the mailbox, one page behind
    every URL and a table of the answers that parse. *)

Module Scenario.

Definition table_loads (table : list (string * json)) (s : string)
    : result json :=
  match assoc s table with
  | Some v => Ok v
  | None => Raise (mkExn JSONDecodeError "Expecting value")
  end.

Definition platform_with (message : msg_data) (page : option string)
    (table : list (string * json)) : Platform := {|
  world := Fixture.fworld;
  urlsafe_b64decode := Fixture.std_urlsafe_b64decode;
  b64decode := Fixture.std_b64decode;
  decode_utf8 := Fixture.utf8_decode;
  parsedate_to_utc := Fixture.fixture_parsedate;
  datetime_now_utc := Fixture.fixture_now;
  soup := Fixture.fsoup;
  BeautifulSoup := Fixture.fixture_parse;
  decompose_all := fun _ sp => Ok sp;
  find_all_a_href := fun sp => Ok (Fixture.s_hrefs sp);
  stripped_strings := fun sp => Ok (Fixture.s_strings sp);
  get_text := fun sp => Ok (Fixture.s_text sp);
  list_of_set := nodup string_dec;
  requests_get_url := Fixture.fixture_get;
  json_loads := table_loads table;
  generate_content := Fixture.fixture_generate;
  crawler_fit_markdown := fun _ w => (Ok page, Fixture.tick w);
  asyncio_run := fun _ m => m;
  gcs_upload := Fixture.fixture_upload;
  gmail_get_message := fun _ w => (Ok message, Fixture.tick w)
|}.

(** A message whose HTML the parser of the fixture rejects. *)
Definition broken_message : msg_data :=
  mkMsg (Some (mkPart "text/html" [("From", "press@acme.example")]
                 "PCFicm9rZW4-" None)) "".

Definition says (answer : string) : list (result response) :=
  [Ok (mkResponse (Ok answer))].

Definition no_release : json := JObj [("press_release", JStr "NO")].

Definition inline_dated : json :=
  JObj [("press_release", JStr "YES"); ("type", JStr "inline");
        ("timestamp", JStr "2025-05-20")].

Definition inline_undated : json :=
  JObj [("press_release", JStr "YES"); ("type", JStr "inline")].

Definition linked : json :=
  JObj [("press_release", JStr "YES"); ("type", JStr "url");
        ("url", JStr "https://acme.example/pr")].

Definition linked_nowhere : json :=
  JObj [("press_release", JStr "YES"); ("type", JStr "url"); ("url", JNull)].

Definition answers : list (string * json) :=
  [("no", no_release); ("dated", inline_dated); ("undated", inline_undated);
   ("linked", linked); ("nowhere", linked_nowhere)].

End Scenario.

(** The fields of the record that do not come from the clock. *)
Definition record_has (r : ProcessingResult) (email_info : ParsedEmail)
    (sender : string) (summary : json) (text0 : option string)
    (url website_timestamp : json) : Prop :=
  llm_summary r = summary
  /\ press_release_text r = text0
  /\ press_release_url r = url
  /\ press_release_website_timestamp r = website_timestamp
  /\ email_subject r = subject email_info
  /\ email_sender r = sender
  /\ email_timestamp r = timestamp email_info.

(** A mailbox with one message and a notification that names an address. *)

Module InboxScenario.

Definition note : json :=
  JObj [("emailAddress", JStr "me@example.org"); ("historyId", JInt 42)].

Definition platform : Platform :=
  Scenario.platform_with Fixture.html_message None [("note", note)].

#[export] Instance inbox : PubSub platform :=
  @Build_PubSub platform InboxFixture.ascii_only InboxFixture.inbox_list
    InboxFixture.inbox_answer InboxFixture.inbox_answer.

Definition address_notification : notification :=
  mkNotification "n3" (InboxFixture.bytes_of "note").

End InboxScenario.

(** The mailbox of [InboxScenario] with a crawler that fails. *)

Module BrokenCrawler.

Definition broken_crawl (url : json) (w : Fixture.fworld)
    : result (option string) * Fixture.fworld :=
  (Raise (mkExn RuntimeError "browser closed"), Fixture.tick w).

#[export] Instance platform : Platform := {|
  world := Fixture.fworld;
  urlsafe_b64decode := Fixture.std_urlsafe_b64decode;
  b64decode := Fixture.std_b64decode;
  decode_utf8 := Fixture.utf8_decode;
  parsedate_to_utc := Fixture.fixture_parsedate;
  datetime_now_utc := Fixture.fixture_now;
  soup := Fixture.fsoup;
  BeautifulSoup := Fixture.fixture_parse;
  decompose_all := fun _ sp => Ok sp;
  find_all_a_href := fun sp => Ok (Fixture.s_hrefs sp);
  stripped_strings := fun sp => Ok (Fixture.s_strings sp);
  get_text := fun sp => Ok (Fixture.s_text sp);
  list_of_set := nodup string_dec;
  requests_get_url := Fixture.fixture_get;
  json_loads := Scenario.table_loads Scenario.answers;
  generate_content := Fixture.fixture_generate;
  crawler_fit_markdown := broken_crawl;
  asyncio_run := fun _ m => m;
  gcs_upload := Fixture.fixture_upload;
  gmail_get_message := Fixture.fixture_message
|}.

End BrokenCrawler.

(** ** Examples on the concrete platform *)

Example decode_body_urlsafe :
  _decode_body (P := Fixture.platform) "PGI-aGk8L2I-" = Ok "<b>hi</b>".
Proof. vm_compute. reflexivity. Qed.

Example decode_body_not_base64 :
  _decode_body (P := Fixture.platform) "YQ" = Ok "".
Proof. vm_compute. reflexivity. Qed.

Example findall_two :
  findall_urls "see https://a.b/c and http://d.e, not httpx://f or https:// ."
  = ["https://a.b/c"; "http://d.e,"].
Proof. vm_compute. reflexivity. Qed.

Example isoformat_example :
  isoformat (mkDatetime 2025 5 20 10 0 0 0) = "2025-05-20T10:00:00+00:00".
Proof. vm_compute. reflexivity. Qed.

Example extract_html_plain_only :
  _extract_html (P := Fixture.platform)
    [mkPart "text/plain" [] "cGxhaW4=" None]
  = Ok "<pre>plain</pre>".
Proof. vm_compute. reflexivity. Qed.

Example parse_falls_back_to_snippet :
  parse_email_content (P := Fixture.platform)
    (mkMsg (Some (mkPart "text/html" [] "" None)) "S") (Fixture.w0 [])
  = (Ok (mkParsed "" "" "<pre>S</pre>"), Fixture.w0 []).
Proof. vm_compute. reflexivity. Qed.

Example process_url_message_without_page :
  exists r w,
    process_email_message (P := Fixture.platform) "m1"
      (Fixture.w0 [Ok (mkResponse (Ok Fixture.url_answer))])
    = (Ok (ResultDict r), w)
    /\ llm_summary r = JObj []
    /\ press_release_text r = None
    /\ press_release_url r = JStr "https://x.com/pr".
Proof. eexists. eexists. vm_compute. repeat split. Qed.

Example process_messages_in_sequence :
  exists r w,
    mapM (process_email_message (P := Fixture.platform)) ["gone"; "m2"; "m1"]
      (Fixture.w0 [])
    = (Ok [EmptyDict; EmptyDict; ResultDict r], w)
    /\ llm_summary r = JObj [].
Proof. eexists. eexists. vm_compute. repeat split. Qed.

Example process_inline_message :
  exists r w,
    process_email_message (P := Fixture.platform) "m1"
      (Fixture.w0 [Ok (mkResponse (Ok Fixture.inline_answer));
                   Ok (mkResponse (Ok Fixture.summary_answer))])
    = (Ok (ResultDict r), w)
    /\ press_release_text r = Some "Acme launches"
    /\ email_timestamp r = "2025-05-20T10:00:00+00:00"
    /\ email_sender r = "press@acme.example".
Proof. eexists. eexists. vm_compute. repeat split. Qed.

(** * Properties *)

(** ** Running effectful code *)

Section MonadFacts.
Context {P : Platform}.

Lemma bind_Ok_inv {A B} (m : M A) (f : A -> M B) w b w' :
  bind m f w = (Ok b, w') ->
  exists a w1, m w = (Ok a, w1) /\ f a w1 = (Ok b, w').
Proof.
  unfold bind. destruct (m w) as [[a | e] w1]; intros H.
  - exists a, w1. split; [reflexivity | exact H].
  - discriminate H.
Qed.

Lemma bind_Ok {A B} (m : M A) (f : A -> M B) w a w1 :
  m w = (Ok a, w1) -> bind m f w = f a w1.
Proof. unfold bind. intros ->. reflexivity. Qed.

Lemma bind_Raise {A B} (m : M A) (f : A -> M B) w e w1 :
  m w = (Raise e, w1) -> bind m f w = (Raise e, w1).
Proof. unfold bind. intros ->. reflexivity. Qed.

Lemma try_except_Ok {A} (m : M A) h w a w1 :
  m w = (Ok a, w1) -> try_except m h w = (Ok a, w1).
Proof. unfold try_except. intros ->. reflexivity. Qed.

Lemma try_except_Raise {A} (m : M A) h w e w1 :
  m w = (Raise e, w1) -> try_except m h w = h e w1.
Proof. unfold try_except. intros ->. reflexivity. Qed.

(** A handler that returns a value makes the whole [try] return. *)
Lemma try_except_returns {A} (m : M A) (d : A) w :
  exists a w', try_except m (fun _ => ret d) w = (Ok a, w').
Proof.
  unfold try_except, ret. destruct (m w) as [[a | e] w1]; eauto.
Qed.

Lemma mapM_Forall2 {A B} (f : A -> M B) l :
  forall w bs w',
    mapM f l w = (Ok bs, w') ->
    Forall2 (fun a b => exists w1 w2, f a w1 = (Ok b, w2)) l bs.
Proof.
  induction l as [| a rest IH]; simpl; intros w bs w' H.
  - unfold ret in H. inversion H. constructor.
  - apply bind_Ok_inv in H. destruct H as (b & w1 & Hf & H).
    apply bind_Ok_inv in H. destruct H as (bs' & w2 & Hrest & H).
    unfold ret in H. inversion H; subst. constructor; eauto.
Qed.

(** A loop whose body always returns, returns one value per item. *)
Lemma mapM_returns {A B} (f : A -> M B) :
  (forall a w, exists b w', f a w = (Ok b, w')) ->
  forall l w, exists bs w', mapM f l w = (Ok bs, w') /\ length bs = length l.
Proof.
  intros Hf. induction l as [| a rest IH]; simpl; intros w.
  - exists [], w. split; reflexivity.
  - destruct (Hf a w) as (b & w1 & Hb).
    destruct (IH w1) as (bs & w2 & Hbs & Hlen).
    exists (b :: bs), w2. split.
    + rewrite (bind_Ok _ _ _ Hb). rewrite (bind_Ok _ _ _ Hbs). reflexivity.
    + simpl. rewrite Hlen. reflexivity.
Qed.

End MonadFacts.

(** ** Strings *)

Lemma substring_0_length n : forall s, String.length (substring 0 n s) <= n.
Proof.
  induction n as [| n IH]; intros [| c s']; simpl; try lia.
  specialize (IH s'). lia.
Qed.

Lemma slice_to_length n s : String.length (slice_to n s) <= n.
Proof. apply substring_0_length. Qed.

Lemma str_truthy_false s : str_truthy s = false <-> s = "".
Proof. destruct s; simpl; split; intros H; congruence. Qed.

Lemma str_truthy_true s : str_truthy s = true <-> s <> "".
Proof. destruct s; simpl; split; intros H; congruence. Qed.

Lemma append_nonempty_r s t : t <> "" -> s ++ t <> "".
Proof.
  intros Ht H. destruct s; simpl in H.
  - contradiction.
  - discriminate.
Qed.

Lemma isoformat_nonempty d : isoformat d <> "".
Proof.
  unfold isoformat. repeat (apply append_nonempty_r). discriminate.
Qed.

(** ** MessageDecoder and ContentExtractor *)

Section Extraction.
Context {P : Platform}.

Lemma decode_body_returns data : exists s, _decode_body data = Ok s.
Proof.
  unfold _decode_body, rtry, rbind.
  destruct (str_truthy data); simpl; [| eauto].
  destruct (urlsafe_b64decode data) as [raw | e].
  - destruct (decode_utf8 raw) as [s | e]; [eauto |].
    destruct (b64decode data) as [raw' | e']; [| eauto].
    destruct (decode_utf8 raw'); eauto.
  - destruct (b64decode data) as [raw' | e']; [| eauto].
    destruct (decode_utf8 raw'); eauto.
Qed.

(** The recursive call inside [visit_part] is [_extract_html]. *)
Lemma visit_part_eq part held :
  visit_part part held =
  if String.eqb (mimeType part) "text/html" then
    if str_truthy (body_data part) then
      html_content <~ _decode_body (body_data part) ;; Ok (Return html_content)
    else Ok (Continue held)
  else if String.eqb (mimeType part) "text/plain" then
    if str_truthy (body_data part) then
      decoded <~ _decode_body (body_data part) ;; Ok (Continue (Some decoded))
    else Ok (Continue held)
  else if startswith (mimeType part) "multipart" then
    match parts part with
    | Some children =>
        nested <~ _extract_html children ;;
        if str_truthy nested then Ok (Return nested) else Ok (Continue held)
    | None => Ok (Continue held)
    end
  else Ok (Continue held).
Proof. destruct part as [m h d [l |]]; reflexivity. Qed.

Lemma extract_loop_cons p rest held :
  extract_loop (p :: rest) held =
  (t <~ visit_part p held ;;
   match t with
   | Return s => Ok s
   | Continue held' => extract_loop rest held'
   end).
Proof. reflexivity. Qed.

Lemma extract_loop_returns_from_parts l :
  Forall (fun p => forall held, exists t, visit_part p held = Ok t) l ->
  forall held, exists s, extract_loop l held = Ok s.
Proof.
  induction 1 as [| p rest Hp _ IH]; intros held.
  - simpl. eauto.
  - rewrite extract_loop_cons. destruct (Hp held) as [t ->]. simpl.
    destruct t; eauto.
Qed.

Lemma visit_part_returns p : forall held, exists t, visit_part p held = Ok t.
Proof.
  induction p as [m h d | m h d l IH] using Part_tree_ind; intros held;
    rewrite visit_part_eq; simpl.
  - destruct (String.eqb m "text/html").
    { destruct (str_truthy d); [| eauto].
      destruct (decode_body_returns d) as [s ->]. simpl. eauto. }
    destruct (String.eqb m "text/plain").
    { destruct (str_truthy d); [| eauto].
      destruct (decode_body_returns d) as [s ->]. simpl. eauto. }
    destruct (startswith m "multipart"); eauto.
  - destruct (String.eqb m "text/html").
    { destruct (str_truthy d); [| eauto].
      destruct (decode_body_returns d) as [s ->]. simpl. eauto. }
    destruct (String.eqb m "text/plain").
    { destruct (str_truthy d); [| eauto].
      destruct (decode_body_returns d) as [s ->]. simpl. eauto. }
    destruct (startswith m "multipart"); [| eauto].
    unfold _extract_html.
    destruct (extract_loop_returns_from_parts IH None) as [s ->]. simpl.
    destruct (str_truthy s); eauto.
Qed.

Lemma extract_html_returns l : exists s, _extract_html l = Ok s.
Proof.
  unfold _extract_html. apply extract_loop_returns_from_parts.
  apply Forall_forall. intros p _. apply visit_part_returns.
Qed.

Lemma extract_email_body_returns payload mime_type l :
  exists s, _extract_email_body payload mime_type l = Ok s.
Proof.
  unfold _extract_email_body.
  destruct (startswith mime_type "multipart"); [apply extract_html_returns |].
  destruct (String.eqb mime_type "text/html").
  { destruct (str_truthy (body_data payload)); [apply decode_body_returns | eauto]. }
  destruct (String.eqb mime_type "text/plain").
  { destruct (str_truthy (body_data payload)); [| eauto].
    destruct (decode_body_returns (body_data payload)) as [s ->]. simpl. eauto. }
  destruct (str_truthy (body_data payload)); [apply decode_body_returns | eauto].
Qed.



Lemma multipart_not_text m :
  startswith m "multipart" = true ->
  String.eqb m "text/html" = false /\ String.eqb m "text/plain" = false.
Proof.
  intros H. split; apply String.eqb_neq; intros ->; discriminate H.
Qed.

Lemma visit_part_goes_on p held :
  goes_on p = true -> exists held', visit_part p held = Ok (Continue held').
Proof.
  unfold goes_on. intros Hp. rewrite visit_part_eq.
  destruct (String.eqb (mimeType p) "text/html").
  { apply negb_true_iff in Hp. rewrite Hp. eauto. }
  destruct (String.eqb (mimeType p) "text/plain").
  { destruct (str_truthy (body_data p)); [| eauto].
    destruct (decode_body_returns (body_data p)) as [s ->]. simpl. eauto. }
  destruct (startswith (mimeType p) "multipart"); [| eauto].
  destruct (parts p) as [children |]; [| eauto].
  destruct (_extract_html children) as [nested | e]; [| discriminate Hp].
  apply negb_true_iff in Hp. simpl. rewrite Hp. eauto.
Qed.



End Extraction.

Section ExtractionClaims.
Context {P : Platform}.

(** C6. [_decode_body] first attempts URL-safe base64 decoding read as
    UTF-8, on any failure attempts standard base64 decoding, and returns the
    empty string when neither succeeds or the input is empty; for every
    input string it returns and never raises. *)
Theorem decode_body_is_MessageDecoder :
  forall data : string, _decode_body data = Ok (MessageDecoder data).
Proof.
  intros data. unfold _decode_body, MessageDecoder, rtry.
  destruct data as [| c data']; [reflexivity |].
  cbn [str_truthy negb first_success].
  destruct (raw <~ urlsafe_b64decode (String c data') ;; decode_utf8 raw);
    [reflexivity |].
  destruct (raw <~ b64decode (String c data') ;; decode_utf8 raw); reflexivity.
Qed.


End ExtractionClaims.



(** ** Header extraction *)

Section ParsingClaims.
Context {P : Platform}.

Lemma parse_email_content_eq msg pl w :
  payload msg = Some pl ->
  exists html_body,
    parse_email_content msg w =
    (if str_truthy (header_of "date" pl) then
       match parsedate_to_utc (header_of "date" pl) with
       | Ok d =>
           (Ok (mkParsed (header_of "subject" pl) (isoformat d) html_body), w)
       | Raise _ =>
           (Ok (mkParsed (header_of "subject" pl)
                  (isoformat (fst (datetime_now_utc w))) html_body),
            snd (datetime_now_utc w))
       end
     else (Ok (mkParsed (header_of "subject" pl) "" html_body), w)).
Proof.
  intros Hpl. unfold parse_email_content, payload_item, header_of.
  rewrite Hpl.
  destruct (extract_email_body_returns pl (mimeType pl)
              (match parts pl with Some l => l | None => [] end)) as [hb Hhb].
  eexists.
  unfold bind at 1. unfold lift at 1.
  destruct (str_truthy (first_header ["date"] (headers pl))).
  - unfold bind at 1. unfold try_except, bind, lift, ret, now_isoformat.
    destruct (parsedate_to_utc (first_header ["date"] (headers pl))) as [d | e].
    + rewrite Hhb. reflexivity.
    + destruct (datetime_now_utc w) as [d w1]. simpl. rewrite Hhb. reflexivity.
  - unfold bind, lift, ret. rewrite Hhb. reflexivity.
Qed.

(** C2, amended.  For a message with a payload, [parse_email_content]
    returns.  When the [Date] header is present with a non-empty value, the
    timestamp is not empty: it is the ISO form of the parsed date, and the
    current UTC time in ISO form when the value cannot be parsed.  When the
    [Date] header is absent or empty, the timestamp is the empty string. *)
Theorem parse_email_content_timestamp :
  forall (msg : msg_data) (pl : Part) (w : world),
    payload msg = Some pl ->
    exists pe w',
      parse_email_content msg w = (Ok pe, w')
      /\ (header_of "date" pl = "" -> timestamp pe = "")
      /\ (header_of "date" pl <> "" ->
          timestamp pe <> ""
          /\ (forall d, parsedate_to_utc (header_of "date" pl) = Ok d ->
                        timestamp pe = isoformat d)
          /\ (forall e, parsedate_to_utc (header_of "date" pl) = Raise e ->
                        timestamp pe = isoformat (fst (datetime_now_utc w)))).
Proof.
  intros msg pl w Hpl.
  destruct (parse_email_content_eq msg w Hpl) as [hb ->].
  destruct (str_truthy (header_of "date" pl)) eqn:Hd.
  - apply str_truthy_true in Hd.
    destruct (parsedate_to_utc (header_of "date" pl)) as [d | e].
    + eexists. eexists. split; [reflexivity |]. simpl. split; [contradiction |].
      intros _. split; [apply isoformat_nonempty |].
      split; [intros d' H; inversion H; reflexivity | intros e H; discriminate H].
    + eexists. eexists. split; [reflexivity |]. simpl. split; [contradiction |].
      intros _. split; [apply isoformat_nonempty |].
      split; [intros d' H; discriminate H | intros e' _; reflexivity].
  - apply str_truthy_false in Hd.
    eexists. eexists. split; [reflexivity |]. simpl. split; [reflexivity |].
    intros Hne. contradiction.
Qed.

End ParsingClaims.

Lemma parse_email_content_timestamp_witness :
  exists pe w',
    parse_email_content (P := Fixture.platform) Fixture.html_message
      (Fixture.w0 []) = (Ok pe, w')
    /\ timestamp pe = "2025-05-20T10:00:00+00:00".
Proof.
  destruct (@parse_email_content_timestamp Fixture.platform
              Fixture.html_message
              (mkPart "text/html"
                 [("Subject", "Acme launches");
                  ("From", "press@acme.example");
                  ("Date", "Tue, 20 May 2025 10:00:00 +0000")]
                 "PHA-QWNtZSBsYXVuY2hlczwvcD4=" None)
              (Fixture.w0 []) eq_refl)
    as (pe & w' & Hrun & _ & Hdate).
  exists pe, w'. split; [exact Hrun |].
  destruct Hdate as (_ & Hparsed & _); [discriminate |].
  apply (Hparsed (mkDatetime 2025 5 20 10 0 0 0)). reflexivity.
Defined.

(** C2 as stated fails: without a [Date] header the timestamp is empty. *)
Lemma timestamp_empty_without_date :
  ~ (forall (P : Platform) (msg : msg_data) (w : world) (pe : ParsedEmail)
            (w' : world),
       parse_email_content msg w = (Ok pe, w') -> timestamp pe <> "").
Proof.
  intros H.
  apply (H Fixture.platform undated_message (Fixture.w0 [])
           (mkParsed "Acme launches" "" "<p>Acme launches</p>")
           (Fixture.w0 [])).
  - vm_compute. reflexivity.
  - reflexivity.
Qed.

(** ** BodyNormalizer *)

Section NormalizerClaims.
Context {P : Platform}.

Lemma lift_Ok_inv {A} (r : result A) w a w' :
  lift r w = (Ok a, w') -> r = Ok a /\ w' = w.
Proof. unfold lift. intros H. inversion H. split; reflexivity. Qed.

(** What a successful run of the [try] block went through. *)
Lemma process_html_try_Ok_inv html w body urls w' :
  process_html_try html w = (Ok (body, urls), w') ->
  exists soup0 soup1 hrefs strings txt,
    BeautifulSoup html = Ok soup0
    /\ decompose_all ["script"; "style"; "nav"; "footer"; "header"] soup0 = Ok soup1
    /\ find_all_a_href soup1 = Ok hrefs
    /\ stripped_strings soup1 = Ok strings
    /\ get_text soup1 = Ok txt
    /\ body = slice_to 1000 (join " " strings)
    /\ resolve_urls (list_of_set (hrefs ++ findall_urls txt)) w = (Ok urls, w').
Proof.
  unfold process_html_try. intros H.
  apply bind_Ok_inv in H. destruct H as (soup0 & w1 & H0 & H).
  apply lift_Ok_inv in H0. destruct H0 as [H0 ->].
  apply bind_Ok_inv in H. destruct H as (soup1 & w1 & H1 & H).
  apply lift_Ok_inv in H1. destruct H1 as [H1 ->].
  apply bind_Ok_inv in H. destruct H as (hrefs & w1 & H2 & H).
  apply lift_Ok_inv in H2. destruct H2 as [H2 ->].
  apply bind_Ok_inv in H. destruct H as (strings & w1 & H3 & H).
  apply lift_Ok_inv in H3. destruct H3 as [H3 ->].
  apply bind_Ok_inv in H. destruct H as (txt & w1 & H4 & H).
  apply lift_Ok_inv in H4. destruct H4 as [H4 ->].
  apply bind_Ok_inv in H. destruct H as (finals & w1 & H5 & H).
  unfold ret in H. inversion H; subst.
  exists soup0, soup1, hrefs, strings, txt. repeat split; assumption.
Qed.

Lemma process_html_content_cases html w :
  (exists body urls w',
     process_html_try html w = (Ok (body, urls), w')
     /\ process_html_content html w = (Ok (body, urls), w'))
  \/ (exists e w',
        process_html_try html w = (Raise e, w')
        /\ process_html_content html w = (Ok ("", []), w')).
Proof.
  unfold process_html_content, try_except, ret.
  destruct (process_html_try html w) as [[[body urls] | e] w'].
  - left. exists body, urls, w'. split; reflexivity.
  - right. exists e, w'. split; reflexivity.
Qed.

(** C7. For every HTML input, whatever the parser and the resolver do,
    [process_html_content] returns a body of at most 1000 characters. *)
Theorem process_html_content_body_bounded :
  forall (html : string) (w : world),
    exists body urls w',
      process_html_content html w = (Ok (body, urls), w')
      /\ String.length body <= 1000.
Proof.
  intros html w.
  destruct (process_html_content_cases html w)
    as [(body & urls & w' & Htry & Hrun) | (e & w' & _ & Hrun)].
  - exists body, urls, w'. split; [exact Hrun |].
    apply process_html_try_Ok_inv in Htry.
    destruct Htry as (_ & _ & _ & strings & _ & _ & _ & _ & _ & _ & -> & _).
    apply slice_to_length.
  - exists "", [], w'. split; [exact Hrun | simpl; lia].
Qed.

(** C8. [process_html_content] always returns; when the parse or any later
    step of its [try] block raises, it returns the empty body and the empty
    list. *)
Theorem process_html_content_contains_failure :
  forall (html : string) (w : world),
    (exists r w', process_html_content html w = (Ok r, w'))
    /\ (forall e w',
          process_html_try html w = (Raise e, w') ->
          process_html_content html w = (Ok ("", []), w'))
    /\ (forall e,
          BeautifulSoup html = Raise e ->
          process_html_content html w = (Ok ("", []), w)).
Proof.
  intros html w. split; [| split].
  - unfold process_html_content. apply try_except_returns.
  - intros e w' H. unfold process_html_content.
    rewrite (try_except_Raise _ _ _ H). reflexivity.
  - intros e H. unfold process_html_content, try_except, process_html_try.
    unfold bind at 1. unfold lift at 1. rewrite H. reflexivity.
Qed.

(** C5, amended.  The candidate URLs are deduplicated before they are
    resolved.  When the [try] block of [process_html_content] does not
    raise, the list it returns is [resolve_urls] of the candidates, the set
    of the anchor targets and of the bare URLs of the text in the order of
    the set: no string occurs twice among the candidates and the list is,
    entry by entry, what the resolver made of them, so two candidates that
    resolve to one string both stay.  When the block raises, the list is
    empty. *)
Theorem process_html_content_urls_resolved_from_set :
  (forall l : list string, NoDup (list_of_set l)) ->
  forall (html : string) (w : world),
    exists body urls w',
      process_html_content html w = (Ok (body, urls), w')
      /\ ((exists e, process_html_try html w = (Raise e, w')
                     /\ body = "" /\ urls = [])
          \/ (exists soup0 soup1 hrefs txt,
                BeautifulSoup html = Ok soup0
                /\ decompose_all ["script"; "style"; "nav"; "footer"; "header"]
                     soup0 = Ok soup1
                /\ find_all_a_href soup1 = Ok hrefs
                /\ get_text soup1 = Ok txt
                /\ NoDup (list_of_set (hrefs ++ findall_urls txt))
                /\ resolve_urls (list_of_set (hrefs ++ findall_urls txt)) w
                   = (Ok urls, w')
                /\ Forall2 resolves_to
                     (list_of_set (hrefs ++ findall_urls txt)) urls)).
Proof.
  intros Hset html w.
  destruct (process_html_content_cases html w)
    as [(body & urls & w' & Htry & Hrun) | (e & w' & Htry & Hrun)].
  - apply process_html_try_Ok_inv in Htry.
    destruct Htry as (soup0 & soup1 & hrefs & strings & txt
                      & H0 & H1 & H2 & _ & H4 & _ & Hres).
    exists body, urls, w'. split; [exact Hrun |].
    right. exists soup0, soup1, hrefs, txt.
    split; [exact H0 |]. split; [exact H1 |]. split; [exact H2 |].
    split; [exact H4 |]. split; [apply Hset |]. split; [exact Hres |].
    unfold resolve_urls in Hres. apply mapM_Forall2 in Hres. exact Hres.
  - exists "", [], w'. split; [exact Hrun |].
    left. exists e. split; [exact Htry |]. split; reflexivity.
Qed.

End NormalizerClaims.

Lemma process_html_content_contains_failure_witness :
  process_html_content (P := Fixture.platform) "<!broken>" (Fixture.w0 [])
  = (Ok ("", []), Fixture.w0 []).
Proof.
  apply (@process_html_content_contains_failure Fixture.platform
           "<!broken>" (Fixture.w0 [])
         ) with (e := mkExn OtherException "parser failure").
  reflexivity.
Defined.

Lemma process_html_content_urls_resolved_from_set_witness :
  exists body urls w',
    process_html_content (P := Fixture.platform) Fixture.two_links
      (Fixture.w0 []) = (Ok (body, urls), w')
    /\ ((exists e, process_html_try (P := Fixture.platform) Fixture.two_links
                     (Fixture.w0 []) = (Raise e, w')
                   /\ body = "" /\ urls = [])
        \/ (exists (soup0 soup1 : Fixture.fsoup) hrefs txt,
              Fixture.fixture_parse Fixture.two_links = Ok soup0
              /\ Ok soup0 = Ok soup1
              /\ Ok (Fixture.s_hrefs soup1) = Ok hrefs
              /\ Ok (Fixture.s_text soup1) = Ok txt
              /\ NoDup (nodup string_dec (hrefs ++ findall_urls txt))
              /\ resolve_urls (P := Fixture.platform)
                   (nodup string_dec (hrefs ++ findall_urls txt))
                   (Fixture.w0 [])
                 = (Ok urls, w')
              /\ Forall2 (resolves_to (P := Fixture.platform))
                   (nodup string_dec (hrefs ++ findall_urls txt)) urls)).
Proof.
  apply (@process_html_content_urls_resolved_from_set Fixture.platform).
  intros l. apply NoDup_nodup.
Defined.

(** C5 as stated fails: two links that redirect to one page give the page
    twice. *)
Lemma resolved_urls_can_repeat :
  ~ (forall (P : Platform),
       (forall l : list string, NoDup (list_of_set l)) ->
       forall (html : string) (w : world) body urls w',
         process_html_content html w = (Ok (body, urls), w') -> NoDup urls).
Proof.
  intros H.
  specialize (H Fixture.platform (fun l => NoDup_nodup string_dec l)
                Fixture.two_links (Fixture.w0 []) "A B"
                ["https://example.org/news"; "https://example.org/news"]
                (Fixture.mkWorld [] 2)).
  assert (Hrun : process_html_content (P := Fixture.platform) Fixture.two_links
                   (Fixture.w0 [])
                 = (Ok ("A B", ["https://example.org/news";
                                "https://example.org/news"]),
                    Fixture.mkWorld [] 2))
    by (vm_compute; reflexivity).
  specialize (H Hrun). inversion H as [| x l Hnotin _]; subst.
  apply Hnotin. left. reflexivity.
Qed.

(** ** Classifier and Summarizer *)

Section ModelClaims.
Context {P : Platform}.

Lemma call_gemini_cases prompt w r w' :
  generate_content prompt w = (r, w') ->
  call_gemini prompt w =
  match parsed_answer r with
  | Ok v => (Ok v, w')
  | Raise _ => (Ok default_classification, w')
  end.
Proof.
  intros H. unfold call_gemini, parsed_answer, try_except.
  unfold bind at 1. rewrite H.
  destruct r as [resp | e]; simpl; [| reflexivity].
  unfold bind, lift, ret.
  destruct (text resp) as [raw | e]; simpl; [| reflexivity].
  destruct (json_loads (strip raw)) as [v | e]; reflexivity.
Qed.

Lemma summarize_cases text0 w r w' :
  generate_content (construct_summary_prompt text0) w = (r, w') ->
  summarize_press_release text0 w =
  match parsed_answer r with
  | Ok (JObj items) => (Ok (JObj items), w')
  | _ => (Ok default_summary, w')
  end.
Proof.
  intros H. unfold summarize_press_release, parsed_answer, try_except.
  unfold bind at 1. rewrite H.
  destruct r as [resp | e]; simpl; [| reflexivity].
  unfold bind, lift, ret.
  destruct (text resp) as [raw | e]; simpl; [| reflexivity].
  destruct (json_loads (strip raw)) as [v | e]; simpl; [| reflexivity].
  destruct v as [| b | z | f | s | l | items]; simpl; try reflexivity.
  destruct (assoc "headline" items); reflexivity.
Qed.

(** The Summarizer always returns a dict. *)
Lemma summarize_returns_dict text0 w :
  exists items w',
    summarize_press_release text0 w = (Ok (JObj items), w').
Proof.
  destruct (generate_content (construct_summary_prompt text0) w) as [r w'] eqn:H.
  rewrite (summarize_cases _ _ H).
  destruct (parsed_answer r) as [[| b | z | f | s | l | items] | e];
    unfold default_summary; eauto.
Qed.

Lemma classify_returns subject body urls w :
  exists v w', classify_press_release subject body urls w = (Ok v, w').
Proof.
  unfold classify_press_release.
  destruct (generate_content
              (construct_classification_prompt subject body urls) w)
    as [r w'] eqn:H.
  rewrite (call_gemini_cases _ _ H). destruct (parsed_answer r); eauto.
Qed.

(** C4. When the call of the model raises, or its answer does not parse as
    JSON, the Classifier returns exactly the default
    [{"press_release": "NO", "type": null, "url": null, "text": null}] and
    the Summarizer exactly the four empty strings; neither default has a
    [timestamp] key and neither function raises. *)
Theorem defaults_on_model_failure :
  forall (subject body : string) (urls : list string) (text0 : string)
         (w : world) (r : result response) (w' : world) (e : exn),
    parsed_answer r = Raise e ->
    (generate_content (construct_classification_prompt subject body urls) w
       = (r, w') ->
     classify_press_release subject body urls w
       = (Ok (JObj [("press_release", JStr "NO"); ("type", JNull);
                    ("url", JNull); ("text", JNull)]), w'))
    /\ (generate_content (construct_summary_prompt text0) w = (r, w') ->
        summarize_press_release text0 w
          = (Ok (JObj [("headline", JStr ""); ("key_result", JStr "");
                       ("impacted_program", JStr ""); ("next_step", JStr "")]),
             w'))
    /\ has_key default_classification "timestamp" = false
    /\ has_key default_summary "timestamp" = false.
Proof.
  intros subject body urls text0 w r w' e Hfail. split; [| split].
  - intros H. unfold classify_press_release.
    rewrite (call_gemini_cases _ _ H), Hfail. reflexivity.
  - intros H. rewrite (summarize_cases _ _ H), Hfail. reflexivity.
  - split; reflexivity.
Qed.

End ModelClaims.

Lemma defaults_on_model_failure_witness :
  classify_press_release (P := Fixture.platform) "Q2 Earnings Alert"
    "quarterly investor update" []
    (Fixture.w0 [Ok (mkResponse (Ok "Sure! Here is the JSON you asked for"))])
  = (Ok default_classification, Fixture.mkWorld [] 1)
  /\ summarize_press_release (P := Fixture.platform) "Acme launches"
       (Fixture.w0 [Ok (mkResponse (Ok "Sure! Here is the JSON you asked for"))])
     = (Ok default_summary, Fixture.mkWorld [] 1).
Proof.
  pose proof (@defaults_on_model_failure Fixture.platform "Q2 Earnings Alert"
                "quarterly investor update" [] "Acme launches"
                (Fixture.w0 [Ok (mkResponse (Ok "Sure! Here is the JSON you asked for"))])
                (Ok (mkResponse (Ok "Sure! Here is the JSON you asked for")))
                (Fixture.mkWorld [] 1)
                (mkExn JSONDecodeError "Expecting value") eq_refl)
    as (Hc & Hs & _).
  split; [apply Hc | apply Hs]; reflexivity.
Defined.

(** ** PipelineOrchestrator *)

Section OrchestratorClaims.
Context {P : Platform}.

Lemma save_to_gcs_returns data filename w :
  exists b w', save_to_gcs data filename w = (Ok b, w').
Proof. unfold save_to_gcs. apply try_except_returns. Qed.

Lemma assemble_returns message_id email_info sender vars w :
  exists r w',
    assemble message_id email_info sender vars w = (Ok (ResultDict r), w')
    /\ press_release_website_timestamp r = v_press_release_website_timestamp vars
    /\ press_release_url r = v_press_release_url vars
    /\ press_release_text r = v_press_release_text vars
    /\ llm_summary r = v_summary vars
    /\ email_timestamp r = timestamp email_info.
Proof.
  unfold assemble, now_isoformat, bind.
  destruct (datetime_now_utc w) as [d1 w1].
  destruct (datetime_now_utc w1) as [d2 w2].
  match goal with
  | |- context [save_to_gcs ?d ?f w2] =>
      destruct (save_to_gcs_returns d f w2) as (b & w3 & ->)
  end.
  unfold ret. eexists. eexists. split; [reflexivity |]. simpl. repeat split.
Qed.

(** The orchestrator after the classification. *)
Lemma process_email_message_after_classification
    message_id w email_info sender body urls w1 classification w2 :
  normalized_stage message_id w = (Ok (email_info, sender, body, urls), w1) ->
  classify_press_release (subject email_info) body urls w1
    = (Ok classification, w2) ->
  process_email_message message_id w =
  try_except
    (vars <- press_release_stage classification body ;;
     assemble message_id email_info sender vars)
    (fun _ => ret EmptyDict) w2.
Proof.
  intros Hn Hc. unfold process_email_message, process_email_try, try_except.
  rewrite (bind_Ok _ _ _ Hn). cbv beta iota.
  rewrite (bind_Ok _ _ _ Hc). reflexivity.
Qed.

Lemma bind_lift_Ok {A B} (r : result A) (f : A -> M B) a w :
  r = Ok a -> bind (lift r) f w = f a w.
Proof. intros ->. reflexivity. Qed.

Lemma bind_lift_Raise {A B} (r : result A) (f : A -> M B) e w :
  r = Raise e -> bind (lift r) f w = (Raise e, w).
Proof. intros ->. reflexivity. Qed.

Lemma press_release_stage_yes classification body w :
  getitem classification "press_release" = Ok (JStr "YES") ->
  press_release_stage classification body w =
  bind (resolve_text classification body)
       (fun p => let '(text0, vars) := p in summarize_if_text text0 vars) w.
Proof.
  intros H. unfold press_release_stage. rewrite (bind_lift_Ok _ _ H).
  reflexivity.
Qed.

Lemma resolve_text_inline classification body w ts :
  getitem classification "type" = Ok (JStr "inline") ->
  getitem classification "timestamp" = Ok ts ->
  resolve_text classification body w
  = (Ok (Some body, mkVars (JObj []) (Some body) JNull ts), w).
Proof.
  intros Hty Hts. unfold resolve_text. rewrite (bind_lift_Ok _ _ Hty).
  replace (py_eq_str (JStr "inline") "inline") with true by reflexivity.
  rewrite (bind_lift_Ok _ _ Hts). reflexivity.
Qed.

Lemma summarize_if_text_runs t vars w items w' :
  str_truthy t = true ->
  summarize_press_release t w = (Ok (JObj items), w') ->
  summarize_if_text (Some t) vars w
  = (Ok (mkVars (JObj items) (v_press_release_text vars)
           (v_press_release_url vars)
           (match assoc "timestamp" items with
            | Some x => x
            | None => JStr ""
            end)), w').
Proof.
  intros Ht Hsum. unfold summarize_if_text. rewrite Ht.
  rewrite (bind_Ok _ _ _ Hsum). unfold bind, lift, ret. simpl.
  destruct (assoc "timestamp" items); destruct (assoc "headline" items);
    reflexivity.
Qed.

(** C10. When the answer of the model parses as JSON but is not a dict with
    the key [press_release], the Classifier returns the parsed value as it
    is, the subscript [classification['press_release']] raises, and the
    message yields [{}]. *)
Theorem unexpected_json_yields_empty_result :
  forall (message_id : string) (w : world) (email_info : ParsedEmail)
         (sender body : string) (urls : list string) (w1 : world)
         (resp : response) (w2 : world) (raw : string) (v : json),
    normalized_stage message_id w = (Ok (email_info, sender, body, urls), w1) ->
    generate_content
      (construct_classification_prompt (subject email_info) body urls) w1
      = (Ok resp, w2) ->
    text resp = Ok raw ->
    json_loads (strip raw) = Ok v ->
    has_key v "press_release" = false ->
    classify_press_release (subject email_info) body urls w1 = (Ok v, w2)
    /\ (exists e, getitem v "press_release" = Raise e)
    /\ process_email_message message_id w = (Ok EmptyDict, w2).
Proof.
  intros message_id w email_info sender body urls w1 resp w2 raw v
         Hn Hg Ht Hj Hk.
  assert (Hc : classify_press_release (subject email_info) body urls w1
               = (Ok v, w2)).
  { unfold classify_press_release. rewrite (call_gemini_cases _ _ Hg).
    unfold parsed_answer. simpl. rewrite Ht. simpl. rewrite Hj. reflexivity. }
  assert (He : exists e, getitem v "press_release" = Raise e).
  { destruct v as [| b | z | f | s | l | items]; simpl; eauto.
    simpl in Hk. destruct (assoc "press_release" items); [discriminate | eauto]. }
  split; [exact Hc |]. split; [exact He |].
  rewrite (process_email_message_after_classification _ _ Hn Hc).
  destruct He as [e He].
  unfold try_except, press_release_stage, bind, lift. rewrite He. reflexivity.
Qed.

(** C3, amended.  On the inline path (the classification has
    [press_release == "YES"], [type == "inline"] and a [timestamp] key, the
    body is not empty) the Summarizer runs on the body, its result is the
    summary of the record, and the final [press_release_website_timestamp]
    is [summary.get('timestamp', '')]: the timestamp of the summary when
    the summary has that key, the empty string when it has not.  The
    timestamp of the classifier is not used. *)
Theorem inline_timestamp_comes_from_summary :
  forall (message_id : string) (w : world) (email_info : ParsedEmail)
         (sender body : string) (urls : list string) (w1 : world)
         (classification : json) (w2 : world) (classifier_timestamp : json),
    normalized_stage message_id w = (Ok (email_info, sender, body, urls), w1) ->
    classify_press_release (subject email_info) body urls w1
      = (Ok classification, w2) ->
    getitem classification "press_release" = Ok (JStr "YES") ->
    getitem classification "type" = Ok (JStr "inline") ->
    getitem classification "timestamp" = Ok classifier_timestamp ->
    body <> "" ->
    exists items w3 r w4,
      summarize_press_release body w2 = (Ok (JObj items), w3)
      /\ process_email_message message_id w = (Ok (ResultDict r), w4)
      /\ llm_summary r = JObj items
      /\ press_release_text r = Some body
      /\ press_release_website_timestamp r =
         match assoc "timestamp" items with
         | Some t => t
         | None => JStr ""
         end.
Proof.
  intros message_id w email_info sender body urls w1 classification w2 cts
         Hn Hc Hpr Hty Hts Hbody.
  destruct (summarize_returns_dict body w2) as (items & w3 & Hsum).
  set (vars := mkVars (JObj items) (Some body) JNull
                 (match assoc "timestamp" items with
                  | Some t => t
                  | None => JStr ""
                  end)).
  assert (Hstage : press_release_stage classification body w2 = (Ok vars, w3)).
  { rewrite (press_release_stage_yes _ _ _ Hpr).
    rewrite (bind_Ok _ _ _ (resolve_text_inline _ body w2 Hty Hts)).
    cbv beta iota.
    apply summarize_if_text_runs; [apply str_truthy_true, Hbody | exact Hsum]. }
  destruct (assemble_returns message_id email_info sender vars w3)
    as (r & w4 & Hasm & Hts' & _ & Htext & Hsummary & _).
  exists items, w3, r, w4. split; [exact Hsum |]. split.
  - rewrite (process_email_message_after_classification _ _ Hn Hc).
    unfold try_except. rewrite (bind_Ok _ _ _ Hstage). rewrite Hasm. reflexivity.
  - split; [exact Hsummary |]. split; [exact Htext | exact Hts'].
Qed.

Lemma process_email_message_returns message_id w :
  exists r w', process_email_message message_id w = (Ok r, w').
Proof. unfold process_email_message. apply try_except_returns. Qed.

(** C9. Whatever the collaborators do, [process_email_message] returns and
    lets no exception out: when a stage of its [try] block raises (the
    fetch of the message, for one) the result is [{}]; and a run over a
    sequence of messages gives a result for each of them. *)
Theorem process_email_message_never_raises :
  forall (message_id : string) (w : world),
    (exists r w', process_email_message message_id w = (Ok r, w'))
    /\ (forall e w',
          process_email_try message_id w = (Raise e, w') ->
          process_email_message message_id w = (Ok EmptyDict, w'))
    /\ (forall e w',
          gmail_get_message message_id w = (Raise e, w') ->
          process_email_message message_id w = (Ok EmptyDict, w'))
    /\ (forall ids : list string,
          exists rs w',
            mapM process_email_message ids w = (Ok rs, w')
            /\ length rs = length ids).
Proof.
  intros message_id w. split; [| split; [| split]].
  - apply process_email_message_returns.
  - intros e w' H. unfold process_email_message.
    rewrite (try_except_Raise _ _ _ H). reflexivity.
  - intros e w' H. unfold process_email_message.
    assert (Htry : process_email_try message_id w = (Raise e, w')).
    { unfold process_email_try, normalized_stage.
      apply bind_Raise. apply bind_Raise. exact H. }
    rewrite (try_except_Raise _ _ _ Htry). reflexivity.
  - intros ids. apply mapM_returns. apply process_email_message_returns.
Qed.

End OrchestratorClaims.

Lemma unexpected_json_yields_empty_result_witness :
  process_email_message (P := Fixture.platform) "m1" Fixture.array_run
  = (Ok EmptyDict, Fixture.mkWorld [] 2).
Proof.
  refine (proj2 (proj2
    (@unexpected_json_yields_empty_result Fixture.platform "m1"
       Fixture.array_run Fixture.parsed_m1 "press@acme.example"
       "Acme launches" []
       (Fixture.mkWorld [Ok (mkResponse (Ok "[]"))] 1)
       (mkResponse (Ok "[]")) (Fixture.mkWorld [] 2) "[]" (JArr [])
       _ _ _ _ _))); vm_compute; reflexivity.
Defined.

Lemma inline_timestamp_comes_from_summary_witness :
  exists r w4,
    process_email_message (P := Fixture.platform) "m1" Fixture.inline_run
      = (Ok (ResultDict r), w4)
    /\ press_release_text r = Some "Acme launches"
    /\ press_release_website_timestamp r = JStr "".
Proof.
  destruct (@inline_timestamp_comes_from_summary Fixture.platform "m1"
              Fixture.inline_run Fixture.parsed_m1 "press@acme.example"
              "Acme launches" []
              (Fixture.mkWorld
                 [Ok (mkResponse (Ok Fixture.inline_answer));
                  Ok (mkResponse (Ok Fixture.summary_answer))] 1)
              Fixture.inline_classification
              (Fixture.mkWorld [Ok (mkResponse (Ok Fixture.summary_answer))] 2)
              (JStr "2025-05-20"))
    as (items & w3 & r & w4 & Hsum & Hrun & _ & Htext & Hts);
    try (vm_compute; reflexivity).
  - discriminate.
  - exists r, w4. split; [exact Hrun |]. split; [exact Htext |].
    rewrite Hts.
    assert (Hitems : summarize_press_release (P := Fixture.platform)
                       "Acme launches"
                       (Fixture.mkWorld
                          [Ok (mkResponse (Ok Fixture.summary_answer))] 2)
                     = (Ok Fixture.summary_without_timestamp,
                        Fixture.mkWorld [] 3))
      by (vm_compute; reflexivity).
    rewrite Hitems in Hsum. inversion Hsum. reflexivity.
Defined.

(** C3 as stated fails: when the summary has no timestamp the final
    timestamp is the empty string, not the date of the classifier. *)
Lemma inline_timestamp_no_fallback :
  ~ (forall (P : Platform) (message_id : string) (w : world)
            (email_info : ParsedEmail) (sender body : string)
            (urls : list string) (w1 : world) (classification : json)
            (w2 : world) (classifier_timestamp : json)
            (items : list (string * json)) (w3 : world)
            (r : ProcessingResult) (w4 : world),
       normalized_stage message_id w
         = (Ok (email_info, sender, body, urls), w1) ->
       classify_press_release (subject email_info) body urls w1
         = (Ok classification, w2) ->
       getitem classification "press_release" = Ok (JStr "YES") ->
       getitem classification "type" = Ok (JStr "inline") ->
       getitem classification "timestamp" = Ok classifier_timestamp ->
       body <> "" ->
       summarize_press_release body w2 = (Ok (JObj items), w3) ->
       process_email_message message_id w = (Ok (ResultDict r), w4) ->
       press_release_website_timestamp r =
       match assoc "timestamp" items with
       | Some t => t
       | None => classifier_timestamp
       end).
Proof.
  intros H.
  specialize (H Fixture.platform "m1" Fixture.inline_run Fixture.parsed_m1
                "press@acme.example" "Acme launches" []
                (Fixture.mkWorld
                   [Ok (mkResponse (Ok Fixture.inline_answer));
                    Ok (mkResponse (Ok Fixture.summary_answer))] 1)
                Fixture.inline_classification
                (Fixture.mkWorld [Ok (mkResponse (Ok Fixture.summary_answer))] 2)
                (JStr "2025-05-20")
                [("headline", JStr "Acme launches"); ("key_result", JStr "launch");
                 ("impacted_program", JStr "none"); ("next_step", JStr "none")]
                (Fixture.mkWorld [] 3)
                Fixture.inline_record (Fixture.mkWorld [] 6)).
  assert (Hbody : "Acme launches" <> "") by discriminate.
  specialize (H ltac:(vm_compute; reflexivity) ltac:(vm_compute; reflexivity)
                eq_refl eq_refl eq_refl Hbody
                ltac:(vm_compute; reflexivity) ltac:(vm_compute; reflexivity)).
  simpl in H. discriminate H.
Qed.

Lemma process_email_message_never_raises_witness :
  process_email_message (P := Fixture.platform) "gone" (Fixture.w0 [])
  = (Ok EmptyDict, Fixture.mkWorld [] 1).
Proof.
  apply (proj1 (proj2 (proj2
    (@process_email_message_never_raises Fixture.platform "gone"
       (Fixture.w0 []))))
    (mkExn OtherException "HttpError 404")).
  reflexivity.
Defined.

(** * Further properties *)

(** ** The walk over the parts *)

Section WalkFacts.
Context {P : Platform}.


Lemma visit_part_keeps_held p held :
  keeps_held p = true -> visit_part p held = Ok (Continue held).
Proof.
  unfold keeps_held, goes_on. intros Hp. apply andb_true_iff in Hp.
  destruct Hp as [Hgo Hnp]. apply negb_true_iff in Hnp.
  rewrite visit_part_eq.
  destruct (String.eqb (mimeType p) "text/html").
  { apply negb_true_iff in Hgo. rewrite Hgo. reflexivity. }
  destruct (String.eqb (mimeType p) "text/plain").
  { simpl in Hnp. rewrite Hnp. reflexivity. }
  destruct (startswith (mimeType p) "multipart"); [| reflexivity].
  destruct (parts p) as [children |]; [| reflexivity].
  destruct (_extract_html children) as [nested | e]; [| discriminate Hgo].
  apply negb_true_iff in Hgo. simpl. rewrite Hgo. reflexivity.
Qed.

Lemma extract_loop_keeps_held l :
  Forall (fun x => keeps_held x = true) l ->
  forall held, extract_loop l held = Ok (after_loop None held).
Proof.
  induction 1 as [| x r Hx _ IH]; intros held.
  - reflexivity.
  - rewrite extract_loop_cons, (visit_part_keeps_held x held Hx). simpl.
    apply IH.
Qed.

Lemma extract_loop_after_goes_on before rest :
  Forall (fun x => goes_on x = true) before ->
  forall held, exists held',
    extract_loop (before ++ rest) held = extract_loop rest held'.
Proof.
  induction 1 as [| x r Hx _ IH]; intros held.
  - exists held. reflexivity.
  - simpl app. rewrite extract_loop_cons.
    destruct (visit_part_goes_on x held Hx) as [held1 ->]. simpl.
    apply IH.
Qed.

(** X1. In a list in which no part ends the walk (none is an HTML part with
    data, and from every nested multipart the empty string is extracted),
    the text that is wrapped is the one of the last plain part with data of
    the list itself: each such part replaces the text held so far.  Plain
    parts inside a nested multipart do not count. *)
Theorem extract_html_last_plain_wins :
  forall (before : list Part) (p : Part) (after : list Part) (s : string),
    Forall (fun x => goes_on x = true) before ->
    plain_with_data p = true ->
    _decode_body (body_data p) = Ok s ->
    Forall (fun x => keeps_held x = true) after ->
    _extract_html (before ++ p :: after)
    = Ok (if str_truthy s then "<pre>" ++ s ++ "</pre>" else "").
Proof.
  intros before p after s Hb Hp Hs Ha. unfold _extract_html.
  destruct (extract_loop_after_goes_on (p :: after) Hb None) as [held ->].
  unfold plain_with_data in Hp. apply andb_true_iff in Hp.
  destruct Hp as [Hm Hd].
  assert (Hh : String.eqb (mimeType p) "text/html" = false).
  { apply String.eqb_eq in Hm. rewrite Hm. reflexivity. }
  rewrite extract_loop_cons, visit_part_eq, Hh, Hm, Hd, Hs. simpl.
  rewrite (extract_loop_keeps_held Ha). unfold after_loop. simpl.
  rewrite andb_true_r. reflexivity.
Qed.

(** X2. A nested multipart from which nothing is extracted does not show
    in the result: the walk goes on as if the part were not there. *)
Theorem extract_html_skips_empty_multipart :
  forall (before : list Part) (p : Part) (children after : list Part),
    startswith (mimeType p) "multipart" = true ->
    parts p = Some children ->
    _extract_html children = Ok "" ->
    _extract_html (before ++ p :: after) = _extract_html (before ++ after).
Proof.
  intros before p children after Hm Hc Hn. unfold _extract_html.
  generalize (@None string).
  induction before as [| x r IH]; intros held; simpl app.
  - destruct (multipart_not_text _ Hm) as [Hh Hpl].
    rewrite extract_loop_cons, visit_part_eq, Hh, Hpl, Hm, Hc, Hn. reflexivity.
  - rewrite !extract_loop_cons.
    destruct (visit_part x held) as [[s | held1] | e]; simpl;
      [reflexivity | apply IH | reflexivity].
Qed.



End WalkFacts.

Lemma extract_html_last_plain_wins_witness :
  _extract_html (P := Fixture.platform) two_plain_parts = Ok "<pre>plain</pre>".
Proof.
  apply (@extract_html_last_plain_wins Fixture.platform
           [ mkPart "text/plain" [] "aGVsbG8=" None;
             mkPart "multipart/alternative" [] ""
               (Some [mkPart "text/plain" [] "YQ" None]) ]
           (mkPart "text/plain" [] "cGxhaW4=" None)
           [ mkPart "multipart/mixed" [] "" (Some [mkPart "text/html" [] "" None]);
             mkPart "image/png" [] "AAAA" None ]
           "plain").
  - repeat constructor.
  - reflexivity.
  - vm_compute. reflexivity.
  - repeat constructor.
Defined.

Lemma extract_html_skips_empty_multipart_witness :
  _extract_html (P := Fixture.platform) [plain_part; empty_alternative; html_part]
  = _extract_html (P := Fixture.platform) [plain_part; html_part].
Proof.
  apply (@extract_html_skips_empty_multipart Fixture.platform
           [plain_part] empty_alternative
           [mkPart "text/plain" [] "" None] [html_part]).
  - reflexivity.
  - reflexivity.
  - vm_compute. reflexivity.
Defined.



(** ** The parsed email *)

Section ParsedEmailFacts.
Context {P : Platform}.

(** The fallback of [parse_email_content] for an empty extraction. *)
Lemma parse_email_content_html msg pl w hb :
  payload msg = Some pl ->
  extracted_body pl = Ok hb ->
  exists pe w',
    parse_email_content msg w = (Ok pe, w')
    /\ subject pe = header_of "subject" pl
    /\ html pe =
       (if str_truthy hb then hb
        else if str_truthy (snippet msg) then "<pre>" ++ snippet msg ++ "</pre>"
        else "<pre>No content could be extracted from this email</pre>").
Proof.
  intros Hpl Hhb. unfold extracted_body in Hhb.
  unfold parse_email_content, payload_item, header_of. rewrite Hpl.
  unfold bind at 1. unfold lift at 1.
  destruct (str_truthy (first_header ["date"] (headers pl))).
  - unfold bind at 1. unfold try_except, bind, lift, ret, now_isoformat.
    destruct (parsedate_to_utc (first_header ["date"] (headers pl))) as [d | e].
    + rewrite Hhb. eexists. eexists. split; [reflexivity |].
      simpl. split; [reflexivity |]. destruct (str_truthy hb); reflexivity.
    + destruct (datetime_now_utc w) as [d w1]. simpl. rewrite Hhb.
      eexists. eexists. split; [reflexivity |].
      simpl. split; [reflexivity |]. destruct (str_truthy hb); reflexivity.
  - unfold bind, lift, ret. rewrite Hhb. eexists. eexists.
    split; [reflexivity |].
    simpl. split; [reflexivity |]. destruct (str_truthy hb); reflexivity.
Qed.

(** X5. For a message with a payload the HTML of the parsed email is never
    empty: it is the extracted body when there is one, else the snippet in
    [<pre>], else the fixed placeholder. *)
Theorem parse_email_content_html_never_empty :
  forall (msg : msg_data) (pl : Part) (w : world),
    payload msg = Some pl ->
    exists pe w' hb,
      parse_email_content msg w = (Ok pe, w')
      /\ extracted_body pl = Ok hb
      /\ html pe <> ""
      /\ (hb <> "" -> html pe = hb)
      /\ (hb = "" -> snippet msg <> "" ->
          html pe = "<pre>" ++ snippet msg ++ "</pre>")
      /\ (hb = "" -> snippet msg = "" ->
          html pe = "<pre>No content could be extracted from this email</pre>").
Proof.
  intros msg pl w Hpl.
  destruct (extract_email_body_returns pl (mimeType pl)
              (match parts pl with Some l => l | None => [] end)) as [hb Hhb].
  destruct (parse_email_content_html msg w Hpl Hhb) as (pe & w' & Hrun & _ & Hh).
  exists pe, w', hb. split; [exact Hrun |]. split; [exact Hhb |].
  destruct (str_truthy hb) eqn:Et.
  - apply str_truthy_true in Et. rewrite Hh.
    split; [exact Et |]. split; [reflexivity |].
    split; intros E; contradiction.
  - apply str_truthy_false in Et.
    destruct (str_truthy (snippet msg)) eqn:Es.
    + apply str_truthy_true in Es. rewrite Hh.
      split; [discriminate |]. split; [intros E; contradiction |].
      split; [reflexivity | intros _ E; contradiction].
    + apply str_truthy_false in Es. rewrite Hh.
      split; [discriminate |]. split; [intros E; contradiction |].
      split; [intros _ E; contradiction | reflexivity].
Qed.

(** X6. A message whose payload is itself [text/plain] with body data never
    falls back to the snippet: its HTML is the decoded text in [<pre>], also
    when the data cannot be decoded and the text is empty. *)
Theorem parse_plain_payload_ignores_snippet :
  forall (msg : msg_data) (pl : Part) (w : world),
    payload msg = Some pl ->
    mimeType pl = "text/plain" ->
    body_data pl <> "" ->
    exists s pe w',
      _decode_body (body_data pl) = Ok s
      /\ parse_email_content msg w = (Ok pe, w')
      /\ html pe = "<pre>" ++ s ++ "</pre>".
Proof.
  intros msg pl w Hpl Hm Hd.
  destruct (decode_body_returns (body_data pl)) as [s Hs].
  assert (Hhb : extracted_body pl = Ok ("<pre>" ++ s ++ "</pre>")).
  { unfold extracted_body, _extract_email_body. rewrite Hm. simpl.
    apply str_truthy_true in Hd. rewrite Hd, Hs. reflexivity. }
  destruct (parse_email_content_html msg w Hpl Hhb) as (pe & w' & Hrun & _ & Hh).
  exists s, pe, w'. split; [exact Hs |]. split; [exact Hrun |].
  rewrite Hh. reflexivity.
Qed.

Lemma first_header_skips names before rest :
  no_header names before = true ->
  first_header names (before ++ rest)%list = first_header names rest.
Proof.
  induction before as [| [n v] r IH]; simpl; intros H; [reflexivity |].
  apply andb_true_iff in H. destruct H as [Hn Hr].
  apply negb_true_iff in Hn. rewrite Hn. apply IH, Hr.
Qed.

(** X7. The sender is the value of the first header whose name is [from] or
    [sender] whatever its case, and the empty string when there is none. *)
Theorem get_email_sender_first_match :
  forall (msg : msg_data) (pl : Part),
    payload msg = Some pl ->
    (forall (before : list (string * string)) (name value : string)
            (after : list (string * string)),
       headers pl = (before ++ (name, value) :: after)%list ->
       no_header ["from"; "sender"] before = true ->
       lower name = "from" \/ lower name = "sender" ->
       get_email_sender msg = Ok value)
    /\ (no_header ["from"; "sender"] (headers pl) = true ->
        get_email_sender msg = Ok "").
Proof.
  intros msg pl Hpl. unfold get_email_sender, payload_item. rewrite Hpl. simpl.
  split.
  - intros before name value after Hh Hb Hn. rewrite Hh.
    rewrite (@first_header_skips _ _ _ Hb). simpl.
    destruct Hn as [-> | ->]; reflexivity.
  - intros Hno.
    rewrite <- (app_nil_r (headers pl)).
    rewrite (@first_header_skips _ _ [] Hno). reflexivity.
Qed.

(** X8. A message resource without a payload makes both header readers
    raise [KeyError], and the orchestrator answers [{}] for it. *)
Theorem missing_payload_yields_empty_result :
  forall (msg : msg_data) (message_id : string) (w w1 : world),
    payload msg = None ->
    gmail_get_message message_id w = (Ok msg, w1) ->
    parse_email_content msg w1 = (Raise (mkExn KeyError "payload"), w1)
    /\ get_email_sender msg = Raise (mkExn KeyError "payload")
    /\ process_email_message message_id w = (Ok EmptyDict, w1).
Proof.
  intros msg message_id w w1 Hpl Hget.
  assert (Hparse : parse_email_content msg w1
                   = (Raise (mkExn KeyError "payload"), w1)).
  { unfold parse_email_content, payload_item. rewrite Hpl. reflexivity. }
  split; [exact Hparse |]. split.
  - unfold get_email_sender, payload_item. rewrite Hpl. reflexivity.
  - unfold process_email_message.
    assert (Htry : process_email_try message_id w
                   = (Raise (mkExn KeyError "payload"), w1)).
    { unfold process_email_try, normalized_stage.
      apply bind_Raise. rewrite (bind_Ok _ _ _ Hget).
      apply bind_Raise. exact Hparse. }
    rewrite (try_except_Raise _ _ _ Htry). reflexivity.
Qed.

End ParsedEmailFacts.

Lemma parse_email_content_html_never_empty_witness :
  exists pe w',
    parse_email_content (P := Fixture.platform)
      (mkMsg (Some (mkPart "text/html" [] "" None)) "S") (Fixture.w0 [])
    = (Ok pe, w')
    /\ html pe = "<pre>S</pre>".
Proof.
  destruct (@parse_email_content_html_never_empty Fixture.platform
              (mkMsg (Some (mkPart "text/html" [] "" None)) "S")
              (mkPart "text/html" [] "" None) (Fixture.w0 []) eq_refl)
    as (pe & w' & hb & Hrun & Hhb & _ & _ & Hsnip & _).
  exists pe, w'. split; [exact Hrun |].
  assert (E : hb = "") by (vm_compute in Hhb; inversion Hhb; reflexivity).
  apply (Hsnip E). discriminate.
Defined.

Lemma parse_plain_payload_ignores_snippet_witness :
  exists pe w',
    parse_email_content (P := Fixture.platform)
      (mkMsg (Some (mkPart "text/plain" [] "YQ" None)) "S") (Fixture.w0 [])
    = (Ok pe, w')
    /\ html pe = "<pre></pre>".
Proof.
  destruct (@parse_plain_payload_ignores_snippet Fixture.platform
              (mkMsg (Some (mkPart "text/plain" [] "YQ" None)) "S")
              (mkPart "text/plain" [] "YQ" None) (Fixture.w0 [])
              eq_refl eq_refl)
    as (s & pe & w' & Hs & Hrun & Hh); [discriminate |].
  exists pe, w'. split; [exact Hrun |].
  vm_compute in Hs. inversion Hs; subst s. exact Hh.
Defined.

Lemma get_email_sender_first_match_witness :
  get_email_sender Fixture.html_message = Ok "press@acme.example".
Proof.
  apply (proj1 (@get_email_sender_first_match Fixture.html_message
                  (mkPart "text/html"
                     [("Subject", "Acme launches");
                      ("From", "press@acme.example");
                      ("Date", "Tue, 20 May 2025 10:00:00 +0000")]
                     "PHA-QWNtZSBsYXVuY2hlczwvcD4=" None) eq_refl)
           [("Subject", "Acme launches")] "From" "press@acme.example"
           [("Date", "Tue, 20 May 2025 10:00:00 +0000")]).
  - reflexivity.
  - reflexivity.
  - left. reflexivity.
Defined.

Lemma missing_payload_yields_empty_result_witness :
  process_email_message (P := Fixture.platform) "m2" (Fixture.w0 [])
  = (Ok EmptyDict, Fixture.mkWorld [] 1).
Proof.
  apply (@missing_payload_yields_empty_result Fixture.platform
           (mkMsg None "") "m2" (Fixture.w0 []) (Fixture.mkWorld [] 1)).
  - reflexivity.
  - reflexivity.
Defined.

(** ** Redirect resolution and the URLs of the text *)

Section ResolverFacts.
Context {P : Platform}.

Lemma resolve_one_cases url w :
  match requests_get_url url w with
  | (Ok final, w') => resolve_one url w = (Ok final, w')
  | (Raise e, w') =>
      if is_request_exception e
      then resolve_one url w = (Ok ("Error: " ++ exn_str e), w')
      else resolve_one url w = (Raise e, w')
  end.
Proof.
  unfold resolve_one, try_except_if, ret.
  destruct (requests_get_url url w) as [[final | e] w']; [reflexivity |].
  destruct (is_request_exception e); reflexivity.
Qed.

(** X9. When the resolver raises nothing but [RequestException],
    [resolve_urls] returns one entry per URL, in order: the final URL, or
    ["Error: "] followed by the text of the exception. *)
Theorem resolve_urls_one_entry_per_url :
  only_request_exceptions ->
  forall (url_list : list string) (w : world),
    exists finals w',
      resolve_urls url_list w = (Ok finals, w')
      /\ length finals = length url_list
      /\ Forall2
           (fun url final =>
              exists w1 w2,
                requests_get_url url w1 = (Ok final, w2)
                \/ (exists e, requests_get_url url w1 = (Raise e, w2)
                               /\ final = "Error: " ++ exn_str e))
           url_list finals.
Proof.
  intros Honly. unfold resolve_urls.
  induction url_list as [| url rest IH]; intros w.
  - exists [], w. repeat split; constructor.
  - pose proof (resolve_one_cases url w) as Hone.
    destruct (requests_get_url url w) as [[final | e] w1] eqn:Hget.
    + destruct (IH w1) as (finals & w' & Hrun & Hlen & Hall).
      exists (final :: finals), w'. split; [| split].
      * simpl. rewrite (bind_Ok _ _ _ Hone), (bind_Ok _ _ _ Hrun). reflexivity.
      * simpl. rewrite Hlen. reflexivity.
      * constructor; [| exact Hall]. exists w, w1. left. exact Hget.
    + rewrite (Honly _ _ _ _ Hget) in Hone.
      destruct (IH w1) as (finals & w' & Hrun & Hlen & Hall).
      exists (("Error: " ++ exn_str e) :: finals), w'. split; [| split].
      * simpl. rewrite (bind_Ok _ _ _ Hone), (bind_Ok _ _ _ Hrun). reflexivity.
      * simpl. rewrite Hlen. reflexivity.
      * constructor; [| exact Hall]. exists w, w1. right. exists e.
        split; [exact Hget | reflexivity].
Qed.

Lemma mapM_raises_at {A B} (f : A -> M B) before a rest e :
  forall w bs w1 w2,
    mapM f before w = (Ok bs, w1) ->
    f a w1 = (Raise e, w2) ->
    mapM f (before ++ a :: rest) w = (Raise e, w2).
Proof.
  induction before as [| x r IH]; intros w bs w1 w2 Hb Ha; simpl in *.
  - unfold ret in Hb. inversion Hb; subst. apply bind_Raise. exact Ha.
  - apply bind_Ok_inv in Hb. destruct Hb as (b & wx & Hx & Hb).
    apply bind_Ok_inv in Hb. destruct Hb as (bs' & wr & Hr & Hret).
    unfold ret in Hret. inversion Hret; subst.
    rewrite (bind_Ok _ _ _ Hx). apply bind_Raise.
    apply (IH _ _ _ _ Hr Ha).
Qed.

(** X10. An exception of the resolver that is not a [RequestException] is
    not turned into an entry, whichever candidate it comes from: it ends
    [process_html_content] with the empty body and the empty list, and the
    text already extracted and the URLs already resolved are lost. *)
Theorem other_resolver_exception_discards_body :
  forall (html : string) (w : world) soup0 soup1
         (hrefs strings : list string) (txt : string)
         (before : list string) (url : string) (rest finals : list string)
         (w1 : world) (e : exn) (w2 : world),
    BeautifulSoup html = Ok soup0 ->
    decompose_all ["script"; "style"; "nav"; "footer"; "header"] soup0 = Ok soup1 ->
    find_all_a_href soup1 = Ok hrefs ->
    stripped_strings soup1 = Ok strings ->
    get_text soup1 = Ok txt ->
    list_of_set (hrefs ++ findall_urls txt) = (before ++ url :: rest)%list ->
    resolve_urls before w = (Ok finals, w1) ->
    requests_get_url url w1 = (Raise e, w2) ->
    is_request_exception e = false ->
    process_html_content html w = (Ok ("", []), w2).
Proof.
  intros html w soup0 soup1 hrefs strings txt before url rest finals w1 e w2
         H0 H1 H2 H3 H4 Hset Hbefore Hget Hcls.
  pose proof (resolve_one_cases url w1) as Hone.
  rewrite Hget, Hcls in Hone.
  assert (Htry : process_html_try html w = (Raise e, w2)).
  { unfold process_html_try.
    rewrite (bind_lift_Ok _ _ H0), (bind_lift_Ok _ _ H1),
            (bind_lift_Ok _ _ H2), (bind_lift_Ok _ _ H3),
            (bind_lift_Ok _ _ H4).
    rewrite Hset. apply bind_Raise. unfold resolve_urls in *.
    eapply mapM_raises_at; [exact Hbefore | exact Hone]. }
  unfold process_html_content. rewrite (try_except_Raise _ _ _ Htry).
  reflexivity.
Qed.

End ResolverFacts.

Lemma resolve_urls_one_entry_per_url_witness :
  exists finals w',
    resolve_urls (P := Fixture.platform)
      ["http://a.example/r"; "ftp://files.example/x"] (Fixture.w0 [])
    = (Ok finals, w')
    /\ length finals = 2.
Proof.
  assert (Honly : @only_request_exceptions Fixture.platform).
  { intros url w e w' H. simpl in H. unfold Fixture.fixture_get in H.
    destruct (startswith url "http://a.example/" || startswith url "http://b.example/");
      [discriminate H |].
    destruct (startswith url "http"); [discriminate H |].
    inversion H. reflexivity. }
  destruct (@resolve_urls_one_entry_per_url Fixture.platform Honly
              ["http://a.example/r"; "ftp://files.example/x"] (Fixture.w0 []))
    as (finals & w' & Hrun & Hlen & _).
  exists finals, w'. split; [exact Hrun | exact Hlen].
Defined.

Lemma other_resolver_exception_discards_body_witness :
  process_html_content (P := BrokenResolver.platform) Fixture.two_links
    (Fixture.w0 [])
  = (Ok ("", []), Fixture.mkWorld [] 2).
Proof.
  apply (@other_resolver_exception_discards_body BrokenResolver.platform
           Fixture.two_links (Fixture.w0 [])
           (Fixture.mkSoup ["http://a.example/r"; "http://b.example/r"]
              ["A"; "B"] "A B")
           (Fixture.mkSoup ["http://a.example/r"; "http://b.example/r"]
              ["A"; "B"] "A B")
           ["http://a.example/r"; "http://b.example/r"] ["A"; "B"] "A B"
           ["http://a.example/r"] "http://b.example/r" []
           ["https://example.org/news"] (Fixture.mkWorld [] 1)
           (mkExn OtherException "LocationParseError")
           (Fixture.mkWorld [] 2)); reflexivity.
Defined.

Lemma strip_prefix_Some p : forall s r, strip_prefix p s = Some r -> s = p ++ r.
Proof.
  induction p as [| a p' IH]; intros s r H; simpl in H.
  - inversion H. reflexivity.
  - destruct s as [| b s']; [discriminate H |].
    destruct (Ascii.eqb a b) eqn:E; [| discriminate H].
    apply Ascii.eqb_eq in E. subst b. simpl. f_equal. apply IH, H.
Qed.

Lemma nonspace_run_prefix t :
  has_space (substring 0 (nonspace_run t) t) = false
  /\ String.length (substring 0 (nonspace_run t) t) = nonspace_run t.
Proof.
  induction t as [| c t' [IH1 IH2]]; simpl; [split; reflexivity |].
  destruct (isspace c) eqn:E; simpl; [split; reflexivity |].
  rewrite E, IH1, IH2. split; reflexivity.
Qed.

Lemma match_tail_Some pre r n :
  match_tail pre r = Some n ->
  exists t, r = "://" ++ t /\ nonspace_run t <> 0
            /\ n = pre + 3 + nonspace_run t.
Proof.
  unfold match_tail. intros H.
  destruct (strip_prefix "://" r) as [t |] eqn:E; [| discriminate H].
  apply strip_prefix_Some in E. exists t.
  destruct (nonspace_run t) as [| k]; [discriminate H |].
  inversion H. repeat split; [exact E | discriminate].
Qed.

(** What a match of the pattern at the start of [s] looks like. *)
Lemma match_url_at_Some s n :
  match_url_at s = Some n ->
  exists scheme t,
    (scheme = "http://" \/ scheme = "https://")
    /\ substring 0 n s = scheme ++ substring 0 (nonspace_run t) t
    /\ nonspace_run t <> 0.
Proof.
  unfold match_url_at. intros H.
  destruct (strip_prefix "http" s) as [r |] eqn:E; [| discriminate H].
  apply strip_prefix_Some in E. subst s.
  assert (Hplain : match_tail 4 r = Some n ->
                   exists scheme t,
                     (scheme = "http://" \/ scheme = "https://")
                     /\ substring 0 n ("http" ++ r)
                        = scheme ++ substring 0 (nonspace_run t) t
                     /\ nonspace_run t <> 0).
  { intros Ht. apply match_tail_Some in Ht.
    destruct Ht as (t & -> & Hk & ->).
    exists "http://", t. split; [left; reflexivity |].
    split; [reflexivity | exact Hk]. }
  destruct (strip_prefix "s" r) as [r' |] eqn:Es; [| exact (Hplain H)].
  destruct (match_tail 5 r') as [m |] eqn:Et; [| exact (Hplain H)].
  inversion H; subst m. apply strip_prefix_Some in Es. subst r.
  apply match_tail_Some in Et. destruct Et as (t & -> & Hk & ->).
  exists "https://", t. split; [right; reflexivity |].
  split; [reflexivity | exact Hk].
Qed.

Lemma startswith_app p r : startswith (p ++ r) p = true.
Proof.
  unfold startswith. apply String.prefix_correct.
  induction p as [| a p' IH]; simpl.
  - destruct r; reflexivity.
  - rewrite IH. reflexivity.
Qed.

(** X11. Every string that the scan of the text for bare URLs returns is
    [http://] or [https://] followed by at least one character, and holds no
    white space. *)
Theorem findall_urls_are_urls :
  forall text : string,
    Forall
      (fun u =>
         exists scheme tail,
           (scheme = "http://" \/ scheme = "https://")
           /\ u = scheme ++ tail
           /\ tail <> ""
           /\ has_space u = false)
      (findall_urls text).
Proof.
  intros text. unfold findall_urls.
  set (Q := fun u : string =>
              exists scheme tail,
                (scheme = "http://" \/ scheme = "https://")
                /\ u = scheme ++ tail
                /\ tail <> ""
                /\ has_space u = false).
  enough (H : forall skip, Forall Q (findall_from skip text)) by apply H.
  induction text as [| c s' IH]; intros skip; cbn [findall_from];
    [constructor |].
  destruct skip as [| k]; [| apply IH].
  destruct (match_url_at (String c s')) as [n |] eqn:E; [| apply IH].
  constructor; [| apply IH].
  apply match_url_at_Some in E.
  destruct E as (scheme & t & Hscheme & -> & Hk).
  destruct (nonspace_run_prefix t) as [Hsp Hlen].
  assert (Htail : substring 0 (nonspace_run t) t <> "").
  { intros E. rewrite E in Hlen. simpl in Hlen. apply Hk. symmetry.
    exact Hlen. }
  unfold Q. exists scheme, (substring 0 (nonspace_run t) t).
  split; [exact Hscheme |]. split; [reflexivity |]. split; [exact Htail |].
  destruct Hscheme as [-> | ->]; simpl; exact Hsp.
Qed.

Lemma slice_to_idempotent n : forall s, slice_to n (slice_to n s) = slice_to n s.
Proof.
  unfold slice_to. induction n as [| n IH]; intros [| c s']; simpl;
    try reflexivity.
  f_equal. apply IH.
Qed.

Section ModelFacts.
Context {P : Platform}.

(** X12. The Classifier sees at most the first 1000 characters of the
    body: classifying a body and classifying its first 1000 characters are
    the same call of the model. *)
Theorem classify_reads_first_1000_characters :
  forall (subject body : string) (urls : list string) (w : world),
    classify_press_release subject body urls w
    = classify_press_release subject (slice_to 1000 body) urls w.
Proof.
  intros subject body urls w.
  unfold classify_press_release, construct_classification_prompt.
  rewrite slice_to_idempotent. reflexivity.
Qed.

(** X13. When the answer of the model parses as JSON, the Summarizer
    returns it only when it is an object, with whatever keys it has; for an
    array, a string, a number or [null] it returns the default summary. *)
Theorem summarize_accepts_objects_only :
  forall (text0 : string) (w : world) (resp : response) (w' : world)
         (raw : string) (v : json),
    generate_content (construct_summary_prompt text0) w = (Ok resp, w') ->
    text resp = Ok raw ->
    json_loads (strip raw) = Ok v ->
    summarize_press_release text0 w
    = (Ok (match v with JObj _ => v | _ => default_summary end), w').
Proof.
  intros text0 w resp w' raw v Hg Ht Hj.
  rewrite (summarize_cases _ _ Hg). unfold parsed_answer. simpl.
  rewrite Ht. simpl. rewrite Hj. destruct v; reflexivity.
Qed.

End ModelFacts.

Lemma summarize_accepts_objects_only_witness :
  summarize_press_release (P := Fixture.platform) "Acme launches"
    (Fixture.w0 [Ok (mkResponse (Ok "[]"))])
  = (Ok default_summary, Fixture.mkWorld [] 1).
Proof.
  apply (@summarize_accepts_objects_only Fixture.platform "Acme launches"
           (Fixture.w0 [Ok (mkResponse (Ok "[]"))])
           (mkResponse (Ok "[]")) (Fixture.mkWorld [] 1) "[]" (JArr []));
    reflexivity.
Defined.

(** ** The paths of the orchestrator *)

Section OrchestratorPaths.
Context {P : Platform}.

Lemma assemble_record message_id email_info sender vars w :
  exists r w',
    assemble message_id email_info sender vars w = (Ok (ResultDict r), w')
    /\ record_has r email_info sender (v_summary vars)
         (v_press_release_text vars) (v_press_release_url vars)
         (v_press_release_website_timestamp vars).
Proof.
  unfold assemble, now_isoformat, bind.
  destruct (datetime_now_utc w) as [d1 w1].
  destruct (datetime_now_utc w1) as [d2 w2].
  match goal with
  | |- context [save_to_gcs ?d ?f w2] =>
      destruct (save_to_gcs_returns d f w2) as (b & w3 & ->)
  end.
  unfold ret. eexists. eexists. split; [reflexivity |].
  unfold record_has. simpl. repeat split.
Qed.

Lemma process_after_stage_returns
    message_id w email_info sender body urls w1 classification w2 vars w3 :
  normalized_stage message_id w = (Ok (email_info, sender, body, urls), w1) ->
  classify_press_release (subject email_info) body urls w1
    = (Ok classification, w2) ->
  press_release_stage classification body w2 = (Ok vars, w3) ->
  exists r w4,
    process_email_message message_id w = (Ok (ResultDict r), w4)
    /\ record_has r email_info sender (v_summary vars)
         (v_press_release_text vars) (v_press_release_url vars)
         (v_press_release_website_timestamp vars).
Proof.
  intros Hn Hc Hs.
  destruct (assemble_record message_id email_info sender vars w3)
    as (r & w4 & Hasm & Hrec).
  exists r, w4. split; [| exact Hrec].
  rewrite (process_email_message_after_classification _ _ Hn Hc).
  unfold try_except. rewrite (bind_Ok _ _ _ Hs), Hasm. reflexivity.
Qed.

Lemma process_after_stage_raises
    message_id w email_info sender body urls w1 classification w2 e w3 :
  normalized_stage message_id w = (Ok (email_info, sender, body, urls), w1) ->
  classify_press_release (subject email_info) body urls w1
    = (Ok classification, w2) ->
  press_release_stage classification body w2 = (Raise e, w3) ->
  process_email_message message_id w = (Ok EmptyDict, w3).
Proof.
  intros Hn Hc Hs.
  rewrite (process_email_message_after_classification _ _ Hn Hc).
  unfold try_except. rewrite (bind_Raise _ _ _ Hs). reflexivity.
Qed.

Lemma press_release_stage_not_yes classification body w pr :
  getitem classification "press_release" = Ok pr ->
  py_eq_str pr "YES" = false ->
  press_release_stage classification body w = (Ok initial_vars, w).
Proof.
  intros Hpr Hno. unfold press_release_stage.
  rewrite (bind_lift_Ok _ _ Hpr), Hno. reflexivity.
Qed.

(** X14. A classification whose [press_release] is anything but ["YES"]
    gives a full record with the empty summary and no press-release text,
    URL or timestamp; the subject, sender and timestamp of the email are
    kept. *)
Theorem not_a_press_release_record :
  forall (message_id : string) (w : world) (email_info : ParsedEmail)
         (sender body : string) (urls : list string) (w1 : world)
         (classification : json) (w2 : world) (pr : json),
    normalized_stage message_id w = (Ok (email_info, sender, body, urls), w1) ->
    classify_press_release (subject email_info) body urls w1
      = (Ok classification, w2) ->
    getitem classification "press_release" = Ok pr ->
    py_eq_str pr "YES" = false ->
    exists r w3,
      process_email_message message_id w = (Ok (ResultDict r), w3)
      /\ record_has r email_info sender (JObj []) None JNull JNull.
Proof.
  intros message_id w email_info sender body urls w1 classification w2 pr
         Hn Hc Hpr Hno.
  apply (process_after_stage_returns _ _ Hn Hc
           (press_release_stage_not_yes _ body w2 Hpr Hno)).
Qed.

(** X15. A failure of the model during classification does not lose the
    message: the default classification makes it a record with the empty
    summary, not [{}]. *)
Theorem classification_failure_still_gives_record :
  forall (message_id : string) (w : world) (email_info : ParsedEmail)
         (sender body : string) (urls : list string) (w1 : world)
         (answer : result response) (w2 : world) (e : exn),
    normalized_stage message_id w = (Ok (email_info, sender, body, urls), w1) ->
    generate_content
      (construct_classification_prompt (subject email_info) body urls) w1
      = (answer, w2) ->
    parsed_answer answer = Raise e ->
    exists r w3,
      process_email_message message_id w = (Ok (ResultDict r), w3)
      /\ record_has r email_info sender (JObj []) None JNull JNull.
Proof.
  intros message_id w email_info sender body urls w1 answer w2 e Hn Hg Hfail.
  assert (Hc : classify_press_release (subject email_info) body urls w1
               = (Ok default_classification, w2)).
  { unfold classify_press_release. rewrite (call_gemini_cases _ _ Hg), Hfail.
    reflexivity. }
  apply (process_after_stage_returns _ _ Hn Hc
           (@press_release_stage_not_yes default_classification body w2
              (JStr "NO") eq_refl eq_refl)).
Qed.

Lemma resolve_text_url classification body w url :
  getitem classification "type" = Ok (JStr "url") ->
  getitem classification "url" = Ok url ->
  truthy url = true ->
  resolve_text classification body w
  = bind (sync_scrape_url url)
      (fun text0 => ret (text0, mkVars (JObj []) text0 url JNull)) w.
Proof.
  intros Hty Hurl Ht. unfold resolve_text. rewrite (bind_lift_Ok _ _ Hty).
  replace (py_eq_str (JStr "url") "inline") with false by reflexivity.
  rewrite (bind_lift_Ok _ _ Hty).
  replace (py_eq_str (JStr "url") "url") with true by reflexivity.
  rewrite (bind_lift_Ok _ _ Hurl), Ht. reflexivity.
Qed.

(** X16. On the URL path, when the scrape gives [None] or the empty
    string, nothing is summarised: the record keeps the URL, has the scrape
    result as its text, the empty summary and no timestamp. *)
Theorem url_without_page_record :
  forall (message_id : string) (w : world) (email_info : ParsedEmail)
         (sender body : string) (urls : list string) (w1 : world)
         (classification : json) (w2 : world) (url : json)
         (text0 : option string) (w3 : world),
    normalized_stage message_id w = (Ok (email_info, sender, body, urls), w1) ->
    classify_press_release (subject email_info) body urls w1
      = (Ok classification, w2) ->
    getitem classification "press_release" = Ok (JStr "YES") ->
    getitem classification "type" = Ok (JStr "url") ->
    getitem classification "url" = Ok url ->
    truthy url = true ->
    sync_scrape_url url w2 = (Ok text0, w3) ->
    opt_truthy text0 = false ->
    exists r w4,
      process_email_message message_id w = (Ok (ResultDict r), w4)
      /\ record_has r email_info sender (JObj []) text0 url JNull.
Proof.
  intros message_id w email_info sender body urls w1 classification w2 url
         text0 w3 Hn Hc Hpr Hty Hurl Ht Hscrape Hempty.
  assert (Hs : press_release_stage classification body w2
               = (Ok (mkVars (JObj []) text0 url JNull), w3)).
  { rewrite (press_release_stage_yes _ _ _ Hpr).
    unfold bind at 1. rewrite (resolve_text_url _ _ _ Hty Hurl Ht).
    rewrite (bind_Ok _ _ _ Hscrape). unfold ret at 1. cbv beta iota.
    unfold summarize_if_text.
    destruct text0 as [t |]; [| reflexivity].
    simpl in Hempty. rewrite Hempty. reflexivity. }
  apply (process_after_stage_returns _ _ Hn Hc Hs).
Qed.

(** X17. On the URL path, when the scrape gives text, the Summarizer runs
    on it: the record has the URL, the scraped text, the summary, and as
    timestamp the [timestamp] of the summary or the empty string. *)
Theorem url_with_page_record :
  forall (message_id : string) (w : world) (email_info : ParsedEmail)
         (sender body : string) (urls : list string) (w1 : world)
         (classification : json) (w2 : world) (url : json)
         (page : string) (w3 : world),
    normalized_stage message_id w = (Ok (email_info, sender, body, urls), w1) ->
    classify_press_release (subject email_info) body urls w1
      = (Ok classification, w2) ->
    getitem classification "press_release" = Ok (JStr "YES") ->
    getitem classification "type" = Ok (JStr "url") ->
    getitem classification "url" = Ok url ->
    truthy url = true ->
    sync_scrape_url url w2 = (Ok (Some page), w3) ->
    page <> "" ->
    exists items w4 r w5,
      summarize_press_release page w3 = (Ok (JObj items), w4)
      /\ process_email_message message_id w = (Ok (ResultDict r), w5)
      /\ record_has r email_info sender (JObj items) (Some page) url
           (match assoc "timestamp" items with
            | Some t => t
            | None => JStr ""
            end).
Proof.
  intros message_id w email_info sender body urls w1 classification w2 url
         page w3 Hn Hc Hpr Hty Hurl Ht Hscrape Hpage.
  destruct (summarize_returns_dict page w3) as (items & w4 & Hsum).
  assert (Hs : press_release_stage classification body w2
               = (Ok (mkVars (JObj items) (Some page) url
                        (match assoc "timestamp" items with
                         | Some t => t
                         | None => JStr ""
                         end)), w4)).
  { rewrite (press_release_stage_yes _ _ _ Hpr).
    unfold bind at 1. rewrite (resolve_text_url _ _ _ Hty Hurl Ht).
    rewrite (bind_Ok _ _ _ Hscrape). unfold ret at 1. cbv beta iota.
    apply summarize_if_text_runs; [apply str_truthy_true, Hpage | exact Hsum]. }
  destruct (process_after_stage_returns _ _ Hn Hc Hs) as (r & w5 & Hrun & Hrec).
  exists items, w4, r, w5. split; [exact Hsum |]. split; [exact Hrun | exact Hrec].
Qed.

(** X18. On the inline path with an empty body nothing is summarised, and
    only then is the timestamp of the classifier the one of the record. *)
Theorem inline_empty_body_keeps_classifier_timestamp :
  forall (message_id : string) (w : world) (email_info : ParsedEmail)
         (sender : string) (urls : list string) (w1 : world)
         (classification : json) (w2 : world) (classifier_timestamp : json),
    normalized_stage message_id w = (Ok (email_info, sender, "", urls), w1) ->
    classify_press_release (subject email_info) "" urls w1
      = (Ok classification, w2) ->
    getitem classification "press_release" = Ok (JStr "YES") ->
    getitem classification "type" = Ok (JStr "inline") ->
    getitem classification "timestamp" = Ok classifier_timestamp ->
    exists r w3,
      process_email_message message_id w = (Ok (ResultDict r), w3)
      /\ record_has r email_info sender (JObj []) (Some "") JNull
           classifier_timestamp.
Proof.
  intros message_id w email_info sender urls w1 classification w2 cts
         Hn Hc Hpr Hty Hts.
  assert (Hs : press_release_stage classification "" w2
               = (Ok (mkVars (JObj []) (Some "") JNull cts), w2)).
  { rewrite (press_release_stage_yes _ _ _ Hpr).
    rewrite (bind_Ok _ _ _ (resolve_text_inline _ "" w2 Hty Hts)).
    reflexivity. }
  apply (process_after_stage_returns _ _ Hn Hc Hs).
Qed.

(** X19. A ["YES"] classification that lacks the key its path reads ([type];
    [timestamp] for [inline]; [url] for [url]) makes the subscript raise:
    the message yields [{}]. *)
Theorem yes_with_missing_key_yields_empty_result :
  forall (message_id : string) (w : world) (email_info : ParsedEmail)
         (sender body : string) (urls : list string) (w1 : world)
         (classification : json) (w2 : world) (e : exn),
    normalized_stage message_id w = (Ok (email_info, sender, body, urls), w1) ->
    classify_press_release (subject email_info) body urls w1
      = (Ok classification, w2) ->
    getitem classification "press_release" = Ok (JStr "YES") ->
    getitem classification "type" = Raise e
    \/ (getitem classification "type" = Ok (JStr "inline")
        /\ getitem classification "timestamp" = Raise e)
    \/ (getitem classification "type" = Ok (JStr "url")
        /\ getitem classification "url" = Raise e) ->
    process_email_message message_id w = (Ok EmptyDict, w2).
Proof.
  intros message_id w email_info sender body urls w1 classification w2 e
         Hn Hc Hpr Hmissing.
  assert (Hs : press_release_stage classification body w2 = (Raise e, w2)).
  { rewrite (press_release_stage_yes _ _ _ Hpr). apply bind_Raise.
    unfold resolve_text.
    destruct Hmissing as [Hty | [[Hty Hts] | [Hty Hurl]]].
    - apply bind_lift_Raise, Hty.
    - rewrite (bind_lift_Ok _ _ Hty).
      replace (py_eq_str (JStr "inline") "inline") with true by reflexivity.
      apply bind_lift_Raise, Hts.
    - rewrite (bind_lift_Ok _ _ Hty).
      replace (py_eq_str (JStr "url") "inline") with false by reflexivity.
      rewrite (bind_lift_Ok _ _ Hty).
      replace (py_eq_str (JStr "url") "url") with true by reflexivity.
      apply bind_lift_Raise, Hurl. }
  apply (process_after_stage_raises _ _ Hn Hc Hs).
Qed.

(** X20. A ["YES"] classification with no usable source (a [type] that is
    neither [inline] nor [url], or a [url] that is null or empty) is
    neither scraped nor summarised: the record is the one of a message that
    is not a press release. *)
Theorem yes_without_source_record :
  forall (message_id : string) (w : world) (email_info : ParsedEmail)
         (sender body : string) (urls : list string) (w1 : world)
         (classification : json) (w2 : world) (ty : json),
    normalized_stage message_id w = (Ok (email_info, sender, body, urls), w1) ->
    classify_press_release (subject email_info) body urls w1
      = (Ok classification, w2) ->
    getitem classification "press_release" = Ok (JStr "YES") ->
    getitem classification "type" = Ok ty ->
    py_eq_str ty "inline" = false ->
    py_eq_str ty "url" = false
    \/ (exists url, getitem classification "url" = Ok url
                    /\ truthy url = false) ->
    exists r w3,
      process_email_message message_id w = (Ok (ResultDict r), w3)
      /\ record_has r email_info sender (JObj []) None JNull JNull.
Proof.
  intros message_id w email_info sender body urls w1 classification w2 ty
         Hn Hc Hpr Hty Hni Hsrc.
  assert (Hs : press_release_stage classification body w2
               = (Ok initial_vars, w2)).
  { rewrite (press_release_stage_yes _ _ _ Hpr).
    assert (Hr : resolve_text classification body w2
                 = (Ok (None, initial_vars), w2)).
    { unfold resolve_text. rewrite (bind_lift_Ok _ _ Hty), Hni.
      rewrite (bind_lift_Ok _ _ Hty).
      destruct Hsrc as [Hnu | (url & Hurl & Hf)].
      - rewrite Hnu. reflexivity.
      - destruct (py_eq_str ty "url"); [| reflexivity].
        rewrite (bind_lift_Ok _ _ Hurl), Hf. reflexivity. }
    rewrite (bind_Ok _ _ _ Hr). reflexivity. }
  apply (process_after_stage_returns _ _ Hn Hc Hs).
Qed.

End OrchestratorPaths.

Lemma not_a_press_release_record_witness :
  exists r w3,
    process_email_message
      (P := Scenario.platform_with Fixture.html_message None Scenario.answers)
      "m1" (Fixture.w0 (Scenario.says "no"))
    = (Ok (ResultDict r), w3)
    /\ llm_summary r = JObj []
    /\ press_release_text r = None.
Proof.
  edestruct (@not_a_press_release_record
               (Scenario.platform_with Fixture.html_message None Scenario.answers)
               "m1" (Fixture.w0 (Scenario.says "no")))
    as (r & w3 & Hrun & Hsum & Htext & _).
  - lazy. reflexivity.
  - lazy. reflexivity.
  - lazy. reflexivity.
  - reflexivity.
  - exists r, w3. split; [exact Hrun |]. split; [exact Hsum | exact Htext].
Defined.

Lemma classification_failure_still_gives_record_witness :
  exists r w3,
    process_email_message
      (P := Scenario.platform_with Fixture.html_message None Scenario.answers)
      "m1" (Fixture.w0 (Scenario.says "I cannot help with that"))
    = (Ok (ResultDict r), w3)
    /\ llm_summary r = JObj [].
Proof.
  edestruct (@classification_failure_still_gives_record
               (Scenario.platform_with Fixture.html_message None Scenario.answers)
               "m1" (Fixture.w0 (Scenario.says "I cannot help with that")))
    as (r & w3 & Hrun & Hsum & _).
  - lazy. reflexivity.
  - lazy. reflexivity.
  - lazy. reflexivity.
  - exists r, w3. split; [exact Hrun | exact Hsum].
Defined.

Lemma url_without_page_record_witness :
  exists r w4,
    process_email_message
      (P := Scenario.platform_with Fixture.html_message None Scenario.answers)
      "m1" (Fixture.w0 (Scenario.says "linked"))
    = (Ok (ResultDict r), w4)
    /\ llm_summary r = JObj []
    /\ press_release_text r = None
    /\ press_release_url r = JStr "https://acme.example/pr".
Proof.
  edestruct (@url_without_page_record
               (Scenario.platform_with Fixture.html_message None Scenario.answers)
               "m1" (Fixture.w0 (Scenario.says "linked")))
    as (r & w4 & Hrun & Hsum & Htext & Hurl & _).
  - lazy. reflexivity.
  - lazy. reflexivity.
  - lazy. reflexivity.
  - lazy. reflexivity.
  - lazy. reflexivity.
  - reflexivity.
  - lazy. reflexivity.
  - reflexivity.
  - exists r, w4. split; [exact Hrun |]. split; [exact Hsum |].
    split; [exact Htext | exact Hurl].
Defined.

Lemma url_with_page_record_witness :
  exists r w5,
    process_email_message
      (P := Scenario.platform_with Fixture.html_message
              (Some "Acme launches a product") Scenario.answers)
      "m1" (Fixture.w0 (Scenario.says "linked"))
    = (Ok (ResultDict r), w5)
    /\ press_release_text r = Some "Acme launches a product"
    /\ press_release_url r = JStr "https://acme.example/pr".
Proof.
  edestruct (@url_with_page_record
               (Scenario.platform_with Fixture.html_message
                  (Some "Acme launches a product") Scenario.answers)
               "m1" (Fixture.w0 (Scenario.says "linked")))
    as (items & w4 & r & w5 & _ & Hrun & _ & Htext & Hurl & _).
  - lazy. reflexivity.
  - lazy. reflexivity.
  - lazy. reflexivity.
  - lazy. reflexivity.
  - lazy. reflexivity.
  - reflexivity.
  - lazy. reflexivity.
  - discriminate.
  - exists r, w5. split; [exact Hrun |]. split; [exact Htext | exact Hurl].
Defined.

Lemma inline_empty_body_keeps_classifier_timestamp_witness :
  exists r w3,
    process_email_message
      (P := Scenario.platform_with Scenario.broken_message None Scenario.answers)
      "m1" (Fixture.w0 (Scenario.says "dated"))
    = (Ok (ResultDict r), w3)
    /\ press_release_website_timestamp r = JStr "2025-05-20".
Proof.
  edestruct (@inline_empty_body_keeps_classifier_timestamp
               (Scenario.platform_with Scenario.broken_message None
                  Scenario.answers)
               "m1" (Fixture.w0 (Scenario.says "dated")))
    as (r & w3 & Hrun & _ & _ & _ & Hts & _).
  - lazy. reflexivity.
  - lazy. reflexivity.
  - lazy. reflexivity.
  - lazy. reflexivity.
  - lazy. reflexivity.
  - exists r, w3. split; [exact Hrun | exact Hts].
Defined.

Lemma yes_with_missing_key_yields_empty_result_witness :
  exists w2,
    process_email_message
      (P := Scenario.platform_with Fixture.html_message None Scenario.answers)
      "m1" (Fixture.w0 (Scenario.says "undated"))
    = (Ok EmptyDict, w2).
Proof.
  eexists.
  eapply (@yes_with_missing_key_yields_empty_result
            (Scenario.platform_with Fixture.html_message None Scenario.answers)
            "m1" (Fixture.w0 (Scenario.says "undated"))).
  - lazy. reflexivity.
  - lazy. reflexivity.
  - lazy. reflexivity.
  - right. left. split; lazy; reflexivity.
Defined.

Lemma yes_without_source_record_witness :
  exists r w3,
    process_email_message
      (P := Scenario.platform_with Fixture.html_message None Scenario.answers)
      "m1" (Fixture.w0 (Scenario.says "nowhere"))
    = (Ok (ResultDict r), w3)
    /\ press_release_url r = JNull.
Proof.
  edestruct (@yes_without_source_record
               (Scenario.platform_with Fixture.html_message None Scenario.answers)
               "m1" (Fixture.w0 (Scenario.says "nowhere")))
    as (r & w3 & Hrun & _ & _ & Hurl & _).
  - lazy. reflexivity.
  - lazy. reflexivity.
  - lazy. reflexivity.
  - lazy. reflexivity.
  - reflexivity.
  - right. exists JNull. split; lazy; reflexivity.
  - exists r, w3. split; [exact Hrun | exact Hurl].
Defined.

(** ** The Pub/Sub callback *)

Section CallbackFacts.
Context {P : Platform} {S : PubSub P}.

(** X21. A notification whose payload is not JSON, is not a dict, or has no
    [emailAddress] is rejected: it is nacked and the message processor is
    not run. *)
Theorem callback_rejects_without_address :
  forall (message : notification) (w w' : world),
    notification_address message = false ->
    message_nack message w = (Ok tt, w') ->
    forall message_processor : string -> M result_dict,
      callback message_processor message w = (Ok tt, w').
Proof.
  intros message w w' Haddr Hnack message_processor.
  unfold notification_address in Haddr.
  unfold callback, try_except. unfold bind at 1. unfold try_except_if.
  unfold bind at 1. unfold lift at 1.
  destruct (json_loads (decode_utf8_ignore (n_data message))) as [data | e].
  - unfold ret at 1. unfold bind at 1, lift at 1.
    destruct (dict_get data "emailAddress" JNull) as [email_data | e].
    + rewrite Haddr. simpl. rewrite Hnack. reflexivity.
    + exact Hnack.
  - destruct (is_json_decode_error e).
    + unfold bind. rewrite Hnack. reflexivity.
    + exact Hnack.
Qed.

(** X22. A notification with an address is acknowledged once the newest
    message of the inbox went through [process_email_message], whatever came
    of it ([{}] included), and at once when the inbox is empty: a message
    whose processing failed is not delivered again. *)
Theorem callback_acknowledges_after_processing :
  forall (message : notification) (w : world) (messages : list string)
         (w1 : world),
    notification_address message = true ->
    gmail_list_inbox w = (Ok messages, w1) ->
    exists w2,
      match messages with
      | [] => w2 = w1
      | msg_id :: _ => exists r, process_email_message msg_id w1 = (Ok r, w2)
      end
      /\ (forall w3,
            message_ack message w2 = (Ok tt, w3) ->
            callback process_email_message message w = (Ok tt, w3)).
Proof.
  intros message w messages w1 Haddr Hlist.
  unfold notification_address in Haddr.
  assert (Hbody : forall w2 w3,
            match messages with
            | [] => w2 = w1
            | msg_id :: _ =>
                exists r, process_email_message msg_id w1 = (Ok r, w2)
            end ->
            message_ack message w2 = (Ok tt, w3) ->
            callback process_email_message message w = (Ok tt, w3)).
  { intros w2 w3 Hrun Hack.
    unfold callback, try_except. unfold bind at 1. unfold try_except_if.
    unfold bind at 1. unfold lift at 1.
    destruct (json_loads (decode_utf8_ignore (n_data message))) as [data | e];
      [| discriminate Haddr].
    unfold ret at 1. unfold bind at 1, lift at 1.
    destruct (dict_get data "emailAddress" JNull) as [email_data | e];
      [| discriminate Haddr].
    rewrite Haddr. simpl. rewrite (bind_Ok _ _ _ Hlist).
    destruct messages as [| msg_id rest].
    - subst w2. rewrite Hack. reflexivity.
    - destruct Hrun as [r Hrun]. rewrite (bind_Ok _ _ _ Hrun), Hack.
      reflexivity. }
  destruct messages as [| msg_id rest].
  - exists w1. split; [reflexivity |]. intros w3. apply Hbody. reflexivity.
  - destruct (process_email_message_returns msg_id w1) as (r & w2 & Hrun).
    exists w2. split; [exists r; exact Hrun |].
    intros w3. apply Hbody. exists r. exact Hrun.
Qed.

(** X23. The callback lets an exception out only when [nack] itself
    raises: with a [nack] that returns, it returns for every notification
    and every message processor, one that raises included. *)
Theorem callback_returns_when_nack_does :
  forall message : notification,
    (forall w1, exists w2, message_nack message w1 = (Ok tt, w2)) ->
    forall (message_processor : string -> M result_dict) (w : world),
      exists w', callback message_processor message w = (Ok tt, w').
Proof.
  intros message Hnack message_processor w.
  unfold callback, try_except.
  match goal with
  | |- context [match ?body w with _ => _ end] =>
      destruct (body w) as [[[] | e] w1]
  end.
  - exists w1. reflexivity.
  - apply Hnack.
Qed.

End CallbackFacts.

Lemma callback_rejects_without_address_witness :
  callback (P := Fixture.platform) (S := InboxFixture.inbox)
    process_email_message InboxFixture.garbled_notification (Fixture.w0 [])
  = (Ok tt, Fixture.mkWorld [] 1).
Proof.
  apply (@callback_rejects_without_address Fixture.platform InboxFixture.inbox
           InboxFixture.garbled_notification (Fixture.w0 [])
           (Fixture.mkWorld [] 1)).
  - lazy. reflexivity.
  - reflexivity.
Defined.

Lemma callback_acknowledges_after_processing_witness :
  exists w3,
    callback (P := InboxScenario.platform) (S := InboxScenario.inbox)
      process_email_message InboxScenario.address_notification (Fixture.w0 [])
    = (Ok tt, w3).
Proof.
  edestruct (@callback_acknowledges_after_processing InboxScenario.platform
               InboxScenario.inbox InboxScenario.address_notification
               (Fixture.w0 []))
    as (w2 & _ & Hack).
  - lazy. reflexivity.
  - lazy. reflexivity.
  - eexists. apply Hack. reflexivity.
Defined.

Lemma callback_returns_when_nack_does_witness :
  exists w',
    callback (P := Fixture.platform) (S := InboxFixture.inbox)
      (fun _ => raise (mkExn RuntimeError "processor failed"))
      InboxFixture.array_notification (Fixture.w0 [])
    = (Ok tt, w').
Proof.
  apply (@callback_returns_when_nack_does Fixture.platform InboxFixture.inbox
           InboxFixture.array_notification).
  intros w1. eexists. reflexivity.
Defined.

Section ScrapeFacts.
Context {P : Platform}.

(** X24. On the URL path a failure of the crawler does not lose the
    message: when [asyncio.run] runs the coroutine to its end, the scrape
    gives [None] and the result is a record with the URL, no text and the
    empty summary. *)
Theorem crawler_failure_still_gives_record :
  forall (message_id : string) (w : world) (email_info : ParsedEmail)
         (sender body : string) (urls : list string) (w1 : world)
         (classification : json) (w2 : world) (url : json) (e : exn)
         (w3 : world),
    normalized_stage message_id w = (Ok (email_info, sender, body, urls), w1) ->
    classify_press_release (subject email_info) body urls w1
      = (Ok classification, w2) ->
    getitem classification "press_release" = Ok (JStr "YES") ->
    getitem classification "type" = Ok (JStr "url") ->
    getitem classification "url" = Ok url ->
    truthy url = true ->
    asyncio_run (async_scrape_url url) w2 = async_scrape_url url w2 ->
    crawler_fit_markdown url w2 = (Raise e, w3) ->
    sync_scrape_url url w2 = (Ok None, w3)
    /\ exists r w4,
         process_email_message message_id w = (Ok (ResultDict r), w4)
         /\ record_has r email_info sender (JObj []) None url JNull.
Proof.
  intros message_id w email_info sender body urls w1 classification w2 url e
         w3 Hn Hc Hpr Hty Hurl Ht Hrun Hcrawl.
  assert (Hscrape : sync_scrape_url url w2 = (Ok None, w3)).
  { unfold sync_scrape_url. rewrite Hrun. unfold async_scrape_url.
    rewrite (try_except_Raise _ _ _ Hcrawl). reflexivity. }
  split; [exact Hscrape |].
  assert (Hs : press_release_stage classification body w2
               = (Ok (mkVars (JObj []) None url JNull), w3)).
  { rewrite (press_release_stage_yes _ _ _ Hpr).
    unfold bind at 1. rewrite (resolve_text_url _ _ _ Hty Hurl Ht).
    rewrite (bind_Ok _ _ _ Hscrape). reflexivity. }
  apply (process_after_stage_returns _ _ Hn Hc Hs).
Qed.

End ScrapeFacts.

Lemma crawler_failure_still_gives_record_witness :
  exists r w4,
    process_email_message (P := BrokenCrawler.platform) "m1"
      (Fixture.w0 (Scenario.says "linked"))
    = (Ok (ResultDict r), w4)
    /\ press_release_text r = None
    /\ press_release_url r = JStr "https://acme.example/pr".
Proof.
  edestruct (@crawler_failure_still_gives_record BrokenCrawler.platform
               "m1" (Fixture.w0 (Scenario.says "linked")))
    as (_ & r & w4 & Hrun & _ & Htext & Hurl & _).
  - lazy. reflexivity.
  - lazy. reflexivity.
  - lazy. reflexivity.
  - lazy. reflexivity.
  - lazy. reflexivity.
  - reflexivity.
  - reflexivity.
  - lazy. reflexivity.
  - exists r, w4. split; [exact Hrun |]. split; [exact Htext | exact Hurl].
Defined.
